(** * UGV knowledge graph: the graph mutator and its analytic queries

    A shallow embedding of [create_neo4j.py].  The class [UGVKnowledgeGraph]
    talks to a property-graph engine through Cypher statements; here the
    engine is a store of labelled nodes and typed, directed edges, and a
    statement the class issues is interpreted over that store by a function
    written next to the method that issues it.

    Three rules of the engine decide what a call does before any row is
    produced, and they are part of the model.
    - A statement is parsed before it is run.  [WHERE] is a part of [MATCH],
      [OPTIONAL MATCH] and [WITH] and stands directly after one of them; the
      argument of an aggregate holds no aggregate.  A statement that breaks
      one of the two rules raises [CypherSyntaxError] on every call and
      leaves the store as it is.
    - A property holds a string, a number or an identifier.  The [CREATE] of
      a node with a map for a property raises [CypherTypeError] and creates
      nothing.
    - Every statement is a transaction of its own: what the earlier
      statements of a method wrote stays written when a later one raises.

    The store carries no uniqueness constraint; those are installed only by
    [setup_schema], which a caller may skip.  Cypher fixes no order of rows
    without [ORDER BY]: the functions below enumerate matches in the order
    of the store's lists, which is one order an engine may produce, and a
    theorem that reads a list out of a result states it up to that order or
    for an id that resolves to one node.

    Embedded: [_execute_query], [_create_node], [_create_relationship], the
    five node constructors, the five relationship constructors, the four
    analytic reads, and of the script around the class
    [populate_knowledge_graph] and [run_example_queries].  [print] calls are
    cosmetic and left out. *)

From Stdlib Require Import Floats Uint63 ZArith.
From stdpp Require Import base numbers option list strings gmap fin_maps.

Local Open Scope string_scope.
Local Open Scope list_scope.
Local Open Scope nat_scope.

(** ** Numbers

    The numeric fields of the domain records hold Python numbers ([int] or
    [float]).  The development is parametric in their representation; only
    the operations the source applies to them are required. *)

Class Number (num : Type) := {
  num_of_Z : Z → num;               (* an integer literal *)
  num_add : num → num → num;        (* [+], also Cypher's [sum] *)
  num_sub : num → num → num;        (* [-] *)
  num_truediv : num → num → num;    (* [/] *)
  num_leb : num → num → bool;       (* [<=] *)
  num_eqb : num → num → bool;       (* [==] *)
}.

(** IEEE-754 binary64, the representation of a Python [float]. *)
Definition float_of_Z (z : Z) : float :=
  if (z <? 0)%Z then PrimFloat.opp (PrimFloat.of_uint63 (Uint63.of_Z (- z)))
  else PrimFloat.of_uint63 (Uint63.of_Z z).

#[export] Instance float_number : Number float := {|
  num_of_Z := float_of_Z;
  num_add := PrimFloat.add;
  num_sub := PrimFloat.sub;
  num_truediv := PrimFloat.div;
  num_leb := PrimFloat.leb;
  num_eqb := PrimFloat.eqb;
|}.

(** ** Values, nodes, edges *)

(** What a property, a statement parameter or a returned column can hold. *)
Inductive value {num : Type} : Type :=
| VNull                                (* None / null *)
| VId (i : nat)                        (* an internal identifier, [id(n)] *)
| VNum (x : num)
| VStr (s : string)
| VDict (d : list (string * num)).     (* Dict[str, float] *)
Arguments value : clear implicits.

Record node {num : Type} := mk_node {
  node_id : nat;
  label : string;
  props : gmap string (value num);
}.
Arguments node : clear implicits.

Record edge {num : Type} := mk_edge {
  rel_type : string;
  src : nat;
  dst : nat;
  rel_props : gmap string (value num);
}.
Arguments edge : clear implicits.

Record graph {num : Type} := mk_graph {
  nodes : list (node num);
  edges : list (edge num);
}.
Arguments graph : clear implicits.

Definition empty_graph {num : Type} : graph num := mk_graph num [] [].

(** ** Domain records (the dataclasses) *)

Record PhysicalProperties {num : Type} := {
  mass : num;
  volume : num;
  cg_offset : num * num * num;
  material : string;
  surface_treatment : option string;
}.
Arguments PhysicalProperties : clear implicits.

Record MechanicalInterface {num : Type} := {
  connector_class : string;
  static_force_limits : list (string * num);
  static_moment_limits : list (string * num);
  dynamic_acceleration_g : num;
  shock_g : num;
  deflection_limit_mm : num;
  mounting_stiffness_min : num;
  natural_freq_min : num;
  allowed_rotation_deg : num;
}.
Arguments MechanicalInterface : clear implicits.

Record ElectricalInterface {num : Type} := {
  power_rail : string;
  max_current_a : num;
  power_draw_w : num;
  data_protocol : string;
  telemetry_rate_hz : num;
  latency_requirement_ms : num;
}.
Arguments ElectricalInterface : clear implicits.

Record ThermalInterface {num : Type} := {
  max_heat_dissipation_w : num;
  operating_temp_min_c : num;
  operating_temp_max_c : num;
  thermal_resistance_k_per_w : num;
}.
Arguments ThermalInterface : clear implicits.

(** ** Exceptions *)

Inductive exn :=
| CypherSyntaxError        (* neo4j.exceptions: the statement is refused *)
| CypherTypeError          (* neo4j.exceptions: a value is refused *)
| KeyError (key : string)  (* Python: a subscript with a key not present *)
| TypeError.               (* Python: an operand of the wrong type *)

Inductive outcome (A : Type) :=
| Returned (a : A)
| Raised (e : exn).
Arguments Returned {A} a.
Arguments Raised {A} e.

#[export] Instance outcome_ret : MRet outcome := λ A a, Returned a.

#[export] Instance outcome_bind : MBind outcome := λ A B k o,
  match o with
  | Returned a => k a
  | Raised e => Raised e
  end.

(** ** The state monad of graph mutations *)

Definition KG (num A : Type) : Type := graph num → A * graph num.

Definition kg_ret {num A} (a : A) : KG num A := λ g, (a, g).

Definition kg_bind {num A B} (c : KG num A) (k : A → KG num B) : KG num B :=
  λ g, let (a, g') := c g in k a g'.

Notation "'let*' x ':=' c 'in' k" := (kg_bind c (λ x, k))
  (at level 10, x name, c at level 100, k at level 200).

(** A computation that may raise.  The store is threaded through either
    way: a raise keeps what was written before it. *)
Definition kg_try {num A B} (c : KG num (outcome A))
    (k : A → KG num (outcome B)) : KG num (outcome B) :=
  λ g, match c g with
       | (Returned a, g') => k a g'
       | (Raised e, g') => (Raised e, g')
       end.

Notation "'let!' x ':=' c 'in' k" := (kg_try c (λ x, k))
  (at level 10, x name, c at level 100, k at level 200).

(** A computation that does not raise, among ones that may. *)
Definition kg_ok {num A} (c : KG num A) : KG num (outcome A) :=
  let* a := c in kg_ret (Returned a).

(** ** Result records of the analytic reads *)

(** [{"status": ..., "reason": ...}], the reason being optional. *)
Record status_dict := { status : string; reason : option string }.

Record budget_report {num : Type} := {
  mission_name : value num;
  total_power_w : num;
  total_power_kw : num;
  budget_kw : num;
  num_modules : nat;
  within_budget : bool;
  margin_kw : num;
  module_ids : list (value num);
}.
Arguments budget_report : clear implicits.

Inductive budget_result {num : Type} :=
| BudgetStatus (s : status_dict)
| BudgetReport (r : budget_report num).
Arguments budget_result : clear implicits.

(** One record of the compatibility statement's RETURN. *)
Record compat_record {num : Type} := {
  module_1 : value num;
  module_2 : value num;
  relationship : string;
  conflict_reason : value num;
}.
Arguments compat_record : clear implicits.

Record compat_report {num : Type} := {
  total_pairs : nat;
  conflicts : list (compat_record num);
  compatible_confirmed : list (compat_record num);
  unknown : nat;
  mission_viable : bool;
}.
Arguments compat_report : clear implicits.

Module Manifest.
(** One map of the collected [modules] column. *)
Record module_entry {num : Type} := {
  module_id : value num;
  type : value num;
  mass_kg : value num;
  power_w : value num;
  constraints : option (list (value num));   (* a list, or null *)
}.
Arguments module_entry : clear implicits.

Record report {num : Type} := {
  mission_name : value num;
  mission_type : value num;
  duration_hours : value num;
  total_mass_kg : num;
  total_power_w : num;
  total_power_kw : num;
  num_modules : nat;
  modules : list (module_entry num);
}.
Arguments report : clear implicits.

Inductive result {num : Type} :=
| Status (s : status_dict)
| Report (r : report num).
Arguments result : clear implicits.
End Manifest.

Module Dependencies.
Record report {num : Type} := {
  module_id : value num;
  module_type : value num;
  power_w : value num;
  mounted_on : value num;
  missions : list (value num);
  interfaces : list (value num);
  conflicts : list (value num);
  compatible_with : list (value num);
}.
Arguments report : clear implicits.

Inductive result {num : Type} :=
| Status (s : status_dict)
| Report (r : report num).
Arguments result : clear implicits.
End Dependencies.

(** One row of the dependency statement before its RETURN: the module and
    what each OPTIONAL MATCH bound. *)
Record dependency_row {num : Type} := {
  dep_m : node num;
  dep_chassis : option (node num);
  dep_mission : option (node num);
  dep_iface : option (node num);
  dep_m2 : option (node num);
  dep_m3 : option (node num);
}.
Arguments dependency_row : clear implicits.

(** One row of the manifest statement's RETURN. *)
Record manifest_row {num : Type} := {
  row_name : value num;
  row_type : value num;
  row_duration_hours : value num;
  row_modules : list (Manifest.module_entry num);
}.
Arguments manifest_row : clear implicits.

(** ** The engine: values and aggregates *)

(** A property expression inside a CREATE pattern.  The class only ever
    writes [k: $p], a reference to the bound parameter [p]. *)
Inductive cexpr := EParam (p : string).

(** How a MATCH pattern pins its node: [WHERE id(a) = $p] or [{key: $p}]. *)
Inductive node_cond :=
| IdIs (p : string)
| PropIs (key p : string).

Record node_pattern := { pat_label : string; pat_cond : node_cond }.

Section Engine.
Context {num : Type} `{!Number num}.

Implicit Types (g : graph num) (n a b : node num) (e : edge num).
Implicit Types (v : value num) (params properties : gmap string (value num)).

Definition eval_param params (p : string) : value num :=
  default VNull (params !! p).

(** A property bound to null is not stored. *)
Definition eval_props (pexprs : gmap string cexpr) params
    : gmap string (value num) :=
  omap (λ x, match x with
             | EParam p =>
                 match eval_param params p with
                 | VNull => None
                 | v => Some v
                 end
             end) pexprs.

(** [n.k]: the stored property, or null. *)
Definition prop n (k : string) : value num := default VNull (props n !! k).

(** [c.k] where [c] was bound by an OPTIONAL MATCH. *)
Definition prop_opt (o : option (node num)) (k : string) : value num :=
  from_option (λ n, prop n k) VNull o.

Definition rel_prop_opt (o : option (edge num)) (k : string) : value num :=
  from_option (λ e, default VNull (rel_props e !! k)) VNull o.

Fixpoint dict_eqb (d1 d2 : list (string * num)) : bool :=
  match d1, d2 with
  | [], [] => true
  | (k1, x1) :: r1, (k2, x2) :: r2 =>
      bool_decide (k1 = k2) && num_eqb x1 x2 && dict_eqb r1 r2
  | _, _ => false
  end.

(** Cypher's [=] taken as a predicate: a comparison with null does not hold. *)
Definition cypher_eq v1 v2 : bool :=
  match v1, v2 with
  | VId i, VId j => bool_decide (i = j)
  | VNum x, VNum y => num_eqb x y
  | VStr s, VStr t => bool_decide (s = t)
  | VDict d1, VDict d2 => dict_eqb d1 d2
  | _, _ => false
  end.

(** Equivalence of grouping keys and of DISTINCT: as [=], and null is
    equivalent to null. *)
Definition cypher_equiv v1 v2 : bool :=
  match v1, v2 with
  | VNull, VNull => true
  | _, _ => cypher_eq v1 v2
  end.

Fixpoint keys_equiv (k1 k2 : list (value num)) : bool :=
  match k1, k2 with
  | [], [] => true
  | v1 :: r1, v2 :: r2 => cypher_equiv v1 v2 && keys_equiv r1 r2
  | _, _ => false
  end.

Definition is_null v : bool := match v with VNull => true | _ => false end.

(** The aggregates [collect] and [sum] skip nulls; DISTINCT keeps the first
    of equivalent values. *)
Definition collect (vs : list (value num)) : list (value num) :=
  List.filter (λ v, negb (is_null v)) vs.

Definition distinct (vs : list (value num)) : list (value num) :=
  foldl (λ acc v, if existsb (cypher_equiv v) acc then acc else acc ++ [v])
        [] vs.

(** [sum(...)]: 0 when there is nothing to add.  The summed property is
    written only from a numeric field. *)
Definition cypher_sum (vs : list (value num)) : num :=
  foldl (λ acc v, match v with VNum x => num_add acc x | _ => acc end)
        (num_of_Z 0) vs.

(** Grouping of the rows of an aggregating RETURN by their key columns, the
    groups in order of first appearance. *)
Fixpoint group_insert {A} (k : list (value num)) (r : A)
    (gs : list (list (value num) * list A)) : list (list (value num) * list A) :=
  match gs with
  | [] => [(k, [r])]
  | (k', rs) :: gs' =>
      if keys_equiv k' k then (k', rs ++ [r]) :: gs'
      else (k', rs) :: group_insert k r gs'
  end.

Definition group_by {A} (key : A → list (value num)) (rows : list A)
    : list (list (value num) * list A) :=
  foldl (λ gs r, group_insert (key r) r gs) [] rows.

(** OPTIONAL MATCH: the matches, or a single null binding when there is
    none. *)
Definition optional {A} (ms : list A) : list (option A) :=
  match ms with
  | [] => [None]
  | _ => Some <$> ms
  end.

(** ** The engine: patterns *)

Definition cond_holds params (c : node_cond) n : bool :=
  match c with
  | IdIs p => cypher_eq (VId (node_id n)) (eval_param params p)
  | PropIs key p => cypher_eq (prop n key) (eval_param params p)
  end.

(** [MATCH (a:L ...)] *)
Definition match_nodes g params (pat : node_pattern) : list (node num) :=
  List.filter (λ n, bool_decide (label n = pat_label pat)
                    && cond_holds params (pat_cond pat) n) (nodes g).

(** [(a)-[:T]->(b)] between two bound nodes. *)
Definition rels_between g (ty : string) a b : list (edge num) :=
  List.filter (λ e, bool_decide (rel_type e = ty)
                    && bool_decide (src e = node_id a)
                    && bool_decide (dst e = node_id b)) (edges g).

(** [MATCH (m:L)-[:T]->(t)] for a bound target [t]: the sources, one per
    edge. *)
Definition match_sources g (lbl ty : string) (t : node num)
    : list (node num) :=
  m ← List.filter (λ n, bool_decide (label n = lbl)) (nodes g);
  _ ← rels_between g ty m t;
  [m].

(** [MATCH (m)-[:T]->(c:L)] for a bound source [m]: the targets, one per
    edge. *)
Definition match_targets g (ty lbl : string) (m : node num)
    : list (node num) :=
  c ← List.filter (λ n, bool_decide (label n = lbl)) (nodes g);
  _ ← rels_between g ty m c;
  [c].

(** The engine hands a new node an identifier no node carries: the successor
    of the largest one in use. *)
Definition next_id (ns : list (node num)) : nat :=
  foldr (λ n acc, Nat.max (S (node_id n)) acc) 0 ns.

Definition fresh_id g : nat := next_id (nodes g).

(** What the store accepts as a property: not a map. *)
Definition storable v : bool :=
  match v with
  | VDict _ => false
  | _ => true
  end.

Definition all_storable (stored : gmap string (value num)) : bool :=
  forallb (λ kv, storable kv.2) (map_to_list stored).

(** [CREATE (n:L {k: $k, ...}) RETURN id(n) AS node_id]: one node and one
    returned row, or [CypherTypeError] and no node when a property is not
    storable. *)
Definition exec_create_node (lbl : string) (pexprs : gmap string cexpr) params
    : KG num (outcome (list nat)) :=
  λ g, let stored := eval_props pexprs params in
       if all_storable stored then
         let n := mk_node num (fresh_id g) lbl stored in
         (Returned [node_id n], mk_graph num (nodes g ++ [n]) (edges g))
       else (Raised CypherTypeError, g).

(** [MATCH (a:...) MATCH (b:...) CREATE (a)-[r:T {...}]->(b) RETURN r]: one
    edge, and one returned row, per pair of matches.  The class binds only
    strings, numbers and identifiers as edge properties. *)
Definition exec_match_create_rel (pa pb : node_pattern) (ty : string)
    (pexprs : gmap string cexpr) params : KG num (list (edge num)) :=
  λ g, let created :=
         a ← match_nodes g params pa;
         b ← match_nodes g params pb;
         [mk_edge num ty (node_id a) (node_id b) (eval_props pexprs params)] in
       (created, mk_graph num (nodes g) (edges g ++ created)).

End Engine.

(** ** The engine: the grammar check

    Of a statement only what the two grammar rules read is recorded: its
    clauses in order, and for the items of a [WITH] or [RETURN] where their
    aggregates are. *)

#[warnings="-register-all"] Inductive rexpr :=
| Plain                          (* an expression without aggregate *)
| Aggregate (arg : rexpr)        (* collect(..), sum(..), count(..) *)
| MapOf (entries : list rexpr).  (* a map literal {k: e, ...} *)

Inductive clause :=
| MATCH
| OPTIONAL_MATCH
| UNWIND
| WHERE
| CREATE
| WITH (items : list rexpr)
| RETURN (items : list rexpr).

Fixpoint has_aggregate (e : rexpr) : bool :=
  match e with
  | Plain => false
  | Aggregate _ => true
  | MapOf es => existsb has_aggregate es
  end.

(** No aggregate inside the argument of an aggregate. *)
Fixpoint item_ok (e : rexpr) : bool :=
  match e with
  | Plain => true
  | Aggregate arg => negb (has_aggregate arg)
  | MapOf es => forallb item_ok es
  end.

Definition items_of (c : clause) : list rexpr :=
  match c with
  | WITH items | RETURN items => items
  | _ => []
  end.

Definition takes_where (c : clause) : bool :=
  match c with
  | MATCH | OPTIONAL_MATCH | WITH _ => true
  | _ => false
  end.

(** Every [WHERE] stands directly after a clause that takes one;
    [before] is the clause before [cs]. *)
Fixpoint where_ok (before : option clause) (cs : list clause) : bool :=
  match cs with
  | [] => true
  | WHERE :: rest =>
      from_option takes_where false before && where_ok (Some WHERE) rest
  | c :: rest => where_ok (Some c) rest
  end.

Definition accepted (query : list clause) : bool :=
  where_ok None query && forallb (λ c, forallb item_ok (items_of c)) query.

(** ** The class [UGVKnowledgeGraph] *)

Section KnowledgeGraph.
Context {num : Type} `{!Number num}.

Implicit Types (g : graph num) (n a b : node num) (e : edge num).
Implicit Types (v : value num) (params properties : gmap string (value num)).

(** Python truthiness, as in [x or y] and [if x]. *)
Definition num_truthy (x : num) : bool := negb (num_eqb x (num_of_Z 0)).

Definition truthy v : bool :=
  match v with
  | VNull => false
  | VId i => negb (bool_decide (i = 0))
  | VNum x => num_truthy x
  | VStr s => negb (bool_decide (s = ""))
  | VDict d => negb (bool_decide (length d = 0))
  end.

Definition id_value (o : option nat) : value num :=
  match o with
  | Some i => VId i
  | None => VNull
  end.

(** [_execute_query] of a read: the statement is parsed, then run; [rows] is
    what the run yields. *)
Definition _execute_query {R} (query : list clause) (rows : list R)
    : outcome (list R) :=
  if accepted query then Returned rows else Raised CypherSyntaxError.

(** The statements of [_create_node], of [_create_relationship] and the five
    relationship constructors, of [validate_mission_power_budget] and of
    [find_module_dependencies].  The [WHERE id(a) = $from_id] of
    [_create_relationship] stands inside the node pattern of its [MATCH].
    All four are accepted, so the methods that issue them are given by the
    run alone. *)
Definition create_node_statement : list clause := [CREATE; RETURN [Plain]].

Definition create_relationship_statement : list clause :=
  [MATCH; MATCH; CREATE; RETURN [Plain]].

Definition power_statement : list clause :=
  [MATCH; RETURN [Plain; Aggregate Plain; Aggregate Plain; Aggregate Plain]].

Definition dependency_statement : list clause :=
  [MATCH; OPTIONAL_MATCH; OPTIONAL_MATCH; OPTIONAL_MATCH; OPTIONAL_MATCH;
   OPTIONAL_MATCH;
   RETURN [Plain; Plain; Plain; Plain; Aggregate Plain; Aggregate Plain;
           Aggregate Plain; Aggregate Plain]].

(** [_create_node]: every property [k] is written as [k: $k] and the
    dictionary itself is bound as the parameters. *)
Definition _create_node (lbl : string) properties
    : KG num (outcome (option nat)) :=
  let props_str := map_imap (λ k _, Some (EParam k)) properties in
  let! result := exec_create_node lbl props_str properties in
  kg_ret (Returned (head result)).

(** [_create_relationship]: both ends are pinned by internal identifier. *)
Definition _create_relationship (from_label : string) (from_id : option nat)
    (rel_type : string) (to_label : string) (to_id : option nat)
    (rel_props : option (gmap string (value num))) : KG num bool :=
  let given := from_option (λ d, negb (bool_decide (size d = 0))) false rel_props in
  let props_str : gmap string cexpr :=
    if given then map_imap (λ k _, Some (EParam k)) (default ∅ rel_props)
    else ∅ in
  let params : gmap string (value num) :=
    list_to_map [("from_id", id_value from_id); ("to_id", id_value to_id)] in
  let params := if given then default ∅ rel_props ∪ params else params in
  let* result := exec_match_create_rel
                   {| pat_label := from_label; pat_cond := IdIs "from_id" |}
                   {| pat_label := to_label; pat_cond := IdIs "to_id" |}
                   rel_type props_str params in
  kg_ret (0 <? length result)%nat.

(** *** Node creation *)

(** [dataclasses.asdict], fields in declaration order. *)
Definition asdict_mechanical (m : MechanicalInterface num)
    : list (string * value num) :=
  [ ("connector_class", VStr (connector_class m));
    ("static_force_limits", VDict (static_force_limits m));
    ("static_moment_limits", VDict (static_moment_limits m));
    ("dynamic_acceleration_g", VNum (dynamic_acceleration_g m));
    ("shock_g", VNum (shock_g m));
    ("deflection_limit_mm", VNum (deflection_limit_mm m));
    ("mounting_stiffness_min", VNum (mounting_stiffness_min m));
    ("natural_freq_min", VNum (natural_freq_min m));
    ("allowed_rotation_deg", VNum (allowed_rotation_deg m)) ].

Definition asdict_electrical (i : ElectricalInterface num)
    : list (string * value num) :=
  [ ("power_rail", VStr (power_rail i));
    ("max_current_a", VNum (max_current_a i));
    ("power_draw_w", VNum (power_draw_w i));
    ("data_protocol", VStr (data_protocol i));
    ("telemetry_rate_hz", VNum (telemetry_rate_hz i));
    ("latency_requirement_ms", VNum (latency_requirement_ms i)) ].

Definition asdict_thermal (t : ThermalInterface num)
    : list (string * value num) :=
  [ ("max_heat_dissipation_w", VNum (max_heat_dissipation_w t));
    ("operating_temp_min_c", VNum (operating_temp_min_c t));
    ("operating_temp_max_c", VNum (operating_temp_max_c t));
    ("thermal_resistance_k_per_w", VNum (thermal_resistance_k_per_w t)) ].

(** [props.update({f"{pre}{k}": v for k, v in d.items()})] *)
Definition update_prefixed (pre : string) (d : list (string * value num))
    properties : gmap string (value num) :=
  foldl (λ acc kv, <[pre +:+ kv.1 := kv.2]> acc) properties d.

Definition create_interface_spec (interface_id interface_type : string)
    (mechanical : option (MechanicalInterface num))
    (electrical : option (ElectricalInterface num))
    (thermal : option (ThermalInterface num)) : KG num (outcome (option nat)) :=
  let props : gmap string (value num) :=
    list_to_map [ ("interface_id", VStr interface_id);
                  ("interface_type", VStr interface_type);
                  ("created_timestamp", VStr "datetime()") ] in
  let props :=
    match mechanical with
    | Some m => update_prefixed "mech_" (asdict_mechanical m) props
    | None => props
    end in
  let props :=
    match electrical with
    | Some i => update_prefixed "elec_" (asdict_electrical i) props
    | None => props
    end in
  let props :=
    match thermal with
    | Some t => update_prefixed "therm_" (asdict_thermal t) props
    | None => props
    end in
  let! node_id := _create_node "Interface_Spec" props in
  kg_ret (Returned node_id).

Definition create_module (module_id module_type : string)
    (physical : PhysicalProperties num)
    (mechanical_iface : option (MechanicalInterface num))
    (electrical_iface : option (ElectricalInterface num))
    (thermal_iface : option (ThermalInterface num))
    (description : string) : KG num (outcome (option nat)) :=
  let props : gmap string (value num) :=
    list_to_map [ ("module_id", VStr module_id);
                  ("module_type", VStr module_type);
                  ("mass_kg", VNum (mass physical));
                  ("volume_m3", VNum (volume physical));
                  ("cg_offset_x", VNum (cg_offset physical).1.1);
                  ("cg_offset_y", VNum (cg_offset physical).1.2);
                  ("cg_offset_z", VNum (cg_offset physical).2);
                  ("material", VStr (material physical));
                  ("surface_treatment",
                   VStr (match surface_treatment physical with
                         | Some s => if bool_decide (s = "") then "standard" else s
                         | None => "standard"
                         end));
                  ("status", VStr "active");
                  ("description", VStr description) ] in
  let props :=
    match electrical_iface with
    | Some i => <["power_rail" := VStr (power_rail i)]>
                  (<["power_draw_w" := VNum (power_draw_w i)]> props)
    | None => props
    end in
  let! node_id := _create_node "UGV_Module" props in
  let! _ :=
    match mechanical_iface with
    | Some m =>
        let! mech_id := create_interface_spec (module_id +:+ "_mechanical")
                          "mechanical" (Some m) None None in
        kg_ok (_create_relationship "UGV_Module" node_id "HAS_INTERFACE"
                                    "Interface_Spec" mech_id None)
    | None => kg_ret (Returned false)
    end in
  let! _ :=
    match electrical_iface with
    | Some i =>
        let! elec_id := create_interface_spec (module_id +:+ "_electrical")
                          "electrical" None (Some i) None in
        kg_ok (_create_relationship "UGV_Module" node_id "HAS_INTERFACE"
                                    "Interface_Spec" elec_id None)
    | None => kg_ret (Returned false)
    end in
  let! _ :=
    match thermal_iface with
    | Some t =>
        let! therm_id := create_interface_spec (module_id +:+ "_thermal")
                           "thermal" None None (Some t) in
        kg_ok (_create_relationship "UGV_Module" node_id "HAS_INTERFACE"
                                    "Interface_Spec" therm_id None)
    | None => kg_ret (Returned false)
    end in
  kg_ret (Returned node_id).

Definition create_base_chassis (chassis_id : string)
    (physical : PhysicalProperties num)
    (power_budget_kw thermal_limit_c num_module_slots : num)
    : KG num (outcome (option nat)) :=
  let props : gmap string (value num) :=
    list_to_map [ ("chassis_id", VStr chassis_id);
                  ("mass_kg", VNum (mass physical));
                  ("volume_m3", VNum (volume physical));
                  ("material", VStr (material physical));
                  ("power_budget_kw", VNum power_budget_kw);
                  ("thermal_limit_c", VNum thermal_limit_c);
                  ("num_module_slots", VNum num_module_slots);
                  ("status", VStr "active") ] in
  let! node_id := _create_node "Base_Chassis" props in
  kg_ret (Returned node_id).

Definition create_mission_profile (mission_id mission_name mission_type : string)
    (duration_hours : num) (description : string) : KG num (outcome (option nat)) :=
  let props : gmap string (value num) :=
    list_to_map [ ("mission_id", VStr mission_id);
                  ("mission_name", VStr mission_name);
                  ("mission_type", VStr mission_type);
                  ("duration_hours", VNum duration_hours);
                  ("description", VStr description);
                  ("validation_status", VStr "unvalidated") ] in
  let! node_id := _create_node "Mission_Profile" props in
  kg_ret (Returned node_id).

Definition create_constraint (constraint_id constraint_type : string)
    (limit_value : num) (unit description : string) : KG num (outcome (option nat)) :=
  let props : gmap string (value num) :=
    list_to_map [ ("constraint_id", VStr constraint_id);
                  ("constraint_type", VStr constraint_type);
                  ("limit_value", VNum limit_value);
                  ("unit", VStr unit);
                  ("description", VStr description) ] in
  let! node_id := _create_node "Constraint" props in
  kg_ret (Returned node_id).

(** *** Relationship management *)

Definition mount_module_on_chassis (module_id chassis_id slot_name : string)
    (position : num * num * num) : KG num bool :=
  let params : gmap string (value num) :=
    list_to_map [ ("module_id", VStr module_id);
                  ("chassis_id", VStr chassis_id);
                  ("slot", VStr slot_name);
                  ("pos_x", VNum position.1.1);
                  ("pos_y", VNum position.1.2);
                  ("pos_z", VNum position.2) ] in
  let* result := exec_match_create_rel
      {| pat_label := "UGV_Module"; pat_cond := PropIs "module_id" "module_id" |}
      {| pat_label := "Base_Chassis"; pat_cond := PropIs "chassis_id" "chassis_id" |}
      "MOUNTED_ON"
      (list_to_map [ ("slot", EParam "slot");
                     ("position_x", EParam "pos_x");
                     ("position_y", EParam "pos_y");
                     ("position_z", EParam "pos_z") ])
      params in
  kg_ret (0 <? length result)%nat.

Definition add_module_to_mission (module_id mission_id : string)
    : KG num bool :=
  let* result := exec_match_create_rel
      {| pat_label := "UGV_Module"; pat_cond := PropIs "module_id" "module_id" |}
      {| pat_label := "Mission_Profile"; pat_cond := PropIs "mission_id" "mission_id" |}
      "PART_OF_MISSION" ∅
      (list_to_map [ ("module_id", VStr module_id);
                     ("mission_id", VStr mission_id) ]) in
  kg_ret (0 <? length result)%nat.

Definition add_constraint_to_module (module_id constraint_id : string)
    : KG num bool :=
  let* result := exec_match_create_rel
      {| pat_label := "UGV_Module"; pat_cond := PropIs "module_id" "module_id" |}
      {| pat_label := "Constraint"; pat_cond := PropIs "constraint_id" "constraint_id" |}
      "CONSTRAINED_BY" ∅
      (list_to_map [ ("module_id", VStr module_id);
                     ("constraint_id", VStr constraint_id) ]) in
  kg_ret (0 <? length result)%nat.

Definition mark_compatible (module_id_1 module_id_2 : string) : KG num bool :=
  let* result := exec_match_create_rel
      {| pat_label := "UGV_Module"; pat_cond := PropIs "module_id" "mod1" |}
      {| pat_label := "UGV_Module"; pat_cond := PropIs "module_id" "mod2" |}
      "COMPATIBLE_WITH" ∅
      (list_to_map [ ("mod1", VStr module_id_1);
                     ("mod2", VStr module_id_2) ]) in
  kg_ret (0 <? length result)%nat.

Definition mark_conflict (module_id_1 module_id_2 reason : string)
    : KG num bool :=
  let* result := exec_match_create_rel
      {| pat_label := "UGV_Module"; pat_cond := PropIs "module_id" "mod1" |}
      {| pat_label := "UGV_Module"; pat_cond := PropIs "module_id" "mod2" |}
      "CONFLICTS_WITH"
      (list_to_map [ ("reason", EParam "reason") ])
      (list_to_map [ ("mod1", VStr module_id_1);
                     ("mod2", VStr module_id_2);
                     ("reason", VStr reason) ]) in
  kg_ret (0 <? length result)%nat.

(** [add_module_to_mission] and [add_constraint_to_module] applied to a
    second argument of any type: Python does not enforce the [str]
    annotation, and the value is bound as the parameter as it is.  At a
    string they are the two operations above. *)
Definition add_module_to_mission_any (module_id : string)
    (mission_id : value num) : KG num bool :=
  let* result := exec_match_create_rel
      {| pat_label := "UGV_Module"; pat_cond := PropIs "module_id" "module_id" |}
      {| pat_label := "Mission_Profile"; pat_cond := PropIs "mission_id" "mission_id" |}
      "PART_OF_MISSION" ∅
      (list_to_map [ ("module_id", VStr module_id);
                     ("mission_id", mission_id) ]) in
  kg_ret (0 <? length result)%nat.

Definition add_constraint_to_module_any (module_id : string)
    (constraint_id : value num) : KG num bool :=
  let* result := exec_match_create_rel
      {| pat_label := "UGV_Module"; pat_cond := PropIs "module_id" "module_id" |}
      {| pat_label := "Constraint"; pat_cond := PropIs "constraint_id" "constraint_id" |}
      "CONSTRAINED_BY" ∅
      (list_to_map [ ("module_id", VStr module_id);
                     ("constraint_id", constraint_id) ]) in
  kg_ret (0 <? length result)%nat.

(** *** Query and analysis *)

(** [MATCH (m:UGV_Module)-[:PART_OF_MISSION]->
          (mission:Mission_Profile {mission_id: $mission_id})]:
    one row [(m, mission)] per membership edge. *)
Definition mission_pattern : node_pattern :=
  {| pat_label := "Mission_Profile"; pat_cond := PropIs "mission_id" "mission_id" |}.

Definition mission_params (mission_id : string) : gmap string (value num) :=
  list_to_map [ ("mission_id", VStr mission_id) ].

Definition match_part_of_mission g (mission_id : string)
    : list (node num * node num) :=
  mission ← match_nodes g (mission_params mission_id) mission_pattern;
  m ← match_sources g "UGV_Module" "PART_OF_MISSION" mission;
  [(m, mission)].

(** The row of the power statement: its four returned columns. *)
Record power_row := {
  row_mission_name : value num;
  row_total_power_w : num;
  row_num_modules : nat;
  row_module_ids : list (value num);
}.

(** [RETURN mission.mission_name, sum(m.power_draw_w), count(m),
    collect(m.module_id)]: one row per distinct mission name among the
    matches, none when nothing matched. *)
Definition power_query g (mission_id : string) : list power_row :=
  (λ grp : list (value num) * list (node num * node num),
     {| row_mission_name := default VNull (head grp.1);
        row_total_power_w :=
          cypher_sum ((λ r : node num * node num, prop r.1 "power_draw_w") <$> grp.2);
        row_num_modules := length grp.2;
        row_module_ids :=
          collect ((λ r : node num * node num, prop r.1 "module_id") <$> grp.2) |})
  <$> group_by (λ r : node num * node num, [prop r.2 "mission_name"])
               (match_part_of_mission g mission_id).

Definition validate_mission_power_budget g (mission_id : string)
    (budget_kw : num) : budget_result num :=
  match power_query g mission_id with
  | [] => BudgetStatus {| status := "invalid";
                          reason := Some "No modules found for mission" |}
  | row :: _ =>
      let or_0 := if num_truthy (row_total_power_w row)
                  then row_total_power_w row else num_of_Z 0 in
      let total_power_kw := num_truediv or_0 (num_of_Z 1000) in
      BudgetReport {| mission_name := row_mission_name row;
                      total_power_w := or_0;
                      total_power_kw := total_power_kw;
                      budget_kw := budget_kw;
                      num_modules := row_num_modules row;
                      within_budget := num_leb total_power_kw budget_kw;
                      margin_kw := num_sub budget_kw total_power_kw;
                      module_ids := row_module_ids row |}
  end.

(** The dependency statement up to its RETURN: one row per combination of
    what the five OPTIONAL MATCHes bind. *)
Definition dependency_bindings g (module_id : string)
    : list (dependency_row num) :=
  m ← match_nodes g (list_to_map [ ("module_id", VStr module_id) ])
        {| pat_label := "UGV_Module";
           pat_cond := PropIs "module_id" "module_id" |};
  chassis ← optional (match_targets g "MOUNTED_ON" "Base_Chassis" m);
  mission ← optional (match_targets g "PART_OF_MISSION" "Mission_Profile" m);
  iface ← optional (match_targets g "HAS_INTERFACE" "Interface_Spec" m);
  m2 ← optional (match_targets g "CONFLICTS_WITH" "UGV_Module" m);
  m3 ← optional (match_targets g "COMPATIBLE_WITH" "UGV_Module" m);
  [ {| dep_m := m; dep_chassis := chassis; dep_mission := mission;
       dep_iface := iface; dep_m2 := m2; dep_m3 := m3 |} ].

(** The grouping columns of the RETURN: module, type, power_w, mounted_on. *)
Definition dependency_key (r : dependency_row num) : list (value num) :=
  [ prop (dep_m r) "module_id"; prop (dep_m r) "module_type";
    prop (dep_m r) "power_draw_w"; prop_opt (dep_chassis r) "chassis_id" ].

(** [collect(DISTINCT x)] *)
Definition collect_distinct (vs : list (value num)) : list (value num) :=
  distinct (collect vs).

Definition dependency_query g (module_id : string)
    : list (Dependencies.report num) :=
  (λ grp : list (value num) * list (dependency_row num),
     {| Dependencies.module_id := default VNull (grp.1 !! 0);
        Dependencies.module_type := default VNull (grp.1 !! 1);
        Dependencies.power_w := default VNull (grp.1 !! 2);
        Dependencies.mounted_on := default VNull (grp.1 !! 3);
        Dependencies.missions :=
          collect_distinct
            ((λ r, prop_opt (dep_mission r) "mission_name") <$> grp.2);
        Dependencies.interfaces :=
          collect_distinct
            ((λ r, prop_opt (dep_iface r) "interface_type") <$> grp.2);
        Dependencies.conflicts :=
          collect_distinct ((λ r, prop_opt (dep_m2 r) "module_id") <$> grp.2);
        Dependencies.compatible_with :=
          collect_distinct ((λ r, prop_opt (dep_m3 r) "module_id") <$> grp.2) |})
  <$> group_by dependency_key (dependency_bindings g module_id).

Definition find_module_dependencies g (module_id : string)
    : Dependencies.result num :=
  match dependency_query g module_id with
  | [] => Dependencies.Status {| status := "not_found"; reason := None |}
  | row :: _ => Dependencies.Report row
  end.

(** *** The two reads whose statement is refused

    What the engine would return for these statements, were it to run them,
    is no part of the model: it is a parameter of the two methods, and no
    result below depends on it. *)

Section Refused.
Variable compat_rows : graph num → string → list (compat_record num).
Variable manifest_rows : graph num → string → list (manifest_row num).

(** [MATCH .. WITH collect(m1) AS modules WITH modules UNWIND .. UNWIND ..
    WHERE id(m1) < id(m2) OPTIONAL MATCH .. OPTIONAL MATCH .. RETURN
    m1.module_id, m2.module_id, CASE .. END, conf.reason] *)
Definition compatibility_statement : list clause :=
  [MATCH; WITH [Aggregate Plain]; WITH [Plain]; UNWIND; UNWIND; WHERE;
   OPTIONAL_MATCH; OPTIONAL_MATCH; RETURN [Plain; Plain; Plain; Plain]].

Definition get_mission_compatibility g (mission_id : string)
    : outcome (compat_report num) :=
  result ← _execute_query compatibility_statement (compat_rows g mission_id);
  let conflicts :=
    List.filter (λ r, bool_decide (relationship r = "CONFLICT")) result in
  let compatible :=
    List.filter (λ r, bool_decide (relationship r = "COMPATIBLE")) result in
  Returned
    {| total_pairs := length result;
       conflicts := conflicts;
       compatible_confirmed := compatible;
       unknown :=
         length (List.filter (λ r, bool_decide (relationship r = "UNKNOWN"))
                             result);
       mission_viable := bool_decide (length conflicts = 0) |}.

(** [MATCH .. OPTIONAL MATCH .. OPTIONAL MATCH .. RETURN mission.mission_name,
    mission.mission_type, mission.duration_hours,
    collect({module_id: .., type: .., mass_kg: .., power_w: ..,
             constraints: collect(DISTINCT c.constraint_id)})] *)
Definition manifest_statement : list clause :=
  [MATCH; OPTIONAL_MATCH; OPTIONAL_MATCH;
   RETURN [Plain; Plain; Plain;
           Aggregate (MapOf [Plain; Plain; Plain; Plain; Aggregate Plain])]].

(** [sum(xs)], from the integer 0: numbers are added, anything else among
    the summands raises [TypeError]. *)
Fixpoint py_sum (acc : num) (xs : list (value num)) : outcome num :=
  match xs with
  | [] => Returned acc
  | VNum x :: rest => py_sum (num_add acc x) rest
  | VId i :: rest => py_sum (num_add acc (num_of_Z (Z.of_nat i))) rest
  | _ :: _ => Raised TypeError
  end.

Definition get_mission_manifest g (mission_id : string)
    : outcome (Manifest.result num) :=
  result ← _execute_query manifest_statement (manifest_rows g mission_id);
  match result with
  | [] => Returned (Manifest.Status {| status := "not_found"; reason := None |})
  | row :: _ =>
      total_mass ← py_sum (num_of_Z 0)
                     (List.filter truthy (Manifest.mass_kg <$> row_modules row));
      total_power ← py_sum (num_of_Z 0)
                      (List.filter truthy (Manifest.power_w <$> row_modules row));
      Returned
        (Manifest.Report
           {| Manifest.mission_name := row_name row;
              Manifest.mission_type := row_type row;
              Manifest.duration_hours := row_duration_hours row;
              Manifest.total_mass_kg := total_mass;
              Manifest.total_power_w := total_power;
              Manifest.total_power_kw := num_truediv total_power (num_of_Z 1000);
              Manifest.num_modules := length (row_modules row);
              Manifest.modules := row_modules row |})
  end.

End Refused.

End KnowledgeGraph.

(** ** Vocabulary of the statements *)

Section Patterns.
Context {num : Type} `{!Number num}.

Implicit Types (g : graph num) (n a b m : node num) (e : edge num).

(** [n] is the node of label [lbl] whose business key [key] holds [id]. *)
Definition has_business_id (lbl key id : string) n : bool :=
  bool_decide (label n = lbl)
  && match props n !! key with
     | Some (VStr s) => bool_decide (s = id)
     | _ => false
     end.

(** The nodes a business id resolves to. *)
Definition resolve g (lbl key id : string) : list (node num) :=
  List.filter (has_business_id lbl key id) (nodes g).

(** Module [m] is linked to a mission profile of id [mission_id] by a
    PART_OF_MISSION edge. *)
Definition linked g (mission_id : string) m : Prop :=
  m ∈ nodes g ∧ label m = "UGV_Module" ∧
  ∃ mission e,
    mission ∈ resolve g "Mission_Profile" "mission_id" mission_id ∧
    e ∈ edges g ∧ rel_type e = "PART_OF_MISSION" ∧
    src e = node_id m ∧ dst e = node_id mission.

(** The modules the power statement matches for a mission, one entry per
    membership edge. *)
Definition mission_modules g (mission_id : string) : list (node num) :=
  (match_part_of_mission g mission_id).*1.

(** [n] carries label [lbl] and internal identifier [i]. *)
Definition node_is (lbl : string) (i : nat) n : bool :=
  bool_decide (label n = lbl) && bool_decide (node_id n = i).

(** The HAS_INTERFACE edge from a module node to an interface node. *)
Definition has_interface (mnode inode : node num) : edge num :=
  mk_edge num "HAS_INTERFACE" (node_id mnode) (node_id inode) ∅.

(** [inode] is the Interface_Spec node of kind [kind] of module
    [module_id]. *)
Definition interface_of (module_id : string) (inode : node num)
    (kind : string) : Prop :=
  label inode = "Interface_Spec"
  ∧ props inode !! "interface_id" = Some (VStr (module_id +:+ "_" +:+ kind))
  ∧ props inode !! "interface_type" = Some (VStr kind).

(** The record [validate_mission_power_budget] returns when its statement
    yields no row. *)
Definition no_modules_found : budget_result num :=
  BudgetStatus {| status := "invalid";
                  reason := Some "No modules found for mission" |}.

(** *** The node-construction operations as one family *)






(** The interface kinds declared on a module record, in the order
    [create_module] visits them. *)
Definition declared_kinds (mechanical_iface : option (MechanicalInterface num))
    (electrical_iface : option (ElectricalInterface num))
    (thermal_iface : option (ThermalInterface num)) : list string :=
  (if mechanical_iface is Some _ then ["mechanical"] else [])
  ++ (if electrical_iface is Some _ then ["electrical"] else [])
  ++ (if thermal_iface is Some _ then ["thermal"] else []).




(** *** The relationship-construction operations as one family *)

Inductive rel_call :=
| MountModuleOnChassis (module_id chassis_id slot_name : string)
    (position : num * num * num)
| AddModuleToMission (module_id mission_id : string)
| AddConstraintToModule (module_id constraint_id : string)
| MarkCompatible (module_id_1 module_id_2 : string)
| MarkConflict (module_id_1 module_id_2 reason : string).

Definition run_rel_call (c : rel_call) : KG num bool :=
  match c with
  | MountModuleOnChassis m ch s p => mount_module_on_chassis m ch s p
  | AddModuleToMission m mi => add_module_to_mission m mi
  | AddConstraintToModule m co => add_constraint_to_module m co
  | MarkCompatible m1 m2 => mark_compatible m1 m2
  | MarkConflict m1 m2 r => mark_conflict m1 m2 r
  end.

(** The nodes the two endpoint business ids of a call resolve to. *)
Definition rel_call_sources g (c : rel_call) : list (node num) :=
  match c with
  | MountModuleOnChassis m _ _ _ | AddModuleToMission m _
  | AddConstraintToModule m _ | MarkCompatible m _ | MarkConflict m _ _ =>
      resolve g "UGV_Module" "module_id" m
  end.

Definition rel_call_targets g (c : rel_call) : list (node num) :=
  match c with
  | MountModuleOnChassis _ ch _ _ => resolve g "Base_Chassis" "chassis_id" ch
  | AddModuleToMission _ mi => resolve g "Mission_Profile" "mission_id" mi
  | AddConstraintToModule _ co => resolve g "Constraint" "constraint_id" co
  | MarkCompatible _ m2 | MarkConflict _ m2 _ =>
      resolve g "UGV_Module" "module_id" m2
  end.

(** The edge a call is to create from [a] to [b]. *)
Definition rel_call_edge (c : rel_call) (a b : node num) : edge num :=
  match c with
  | MountModuleOnChassis _ _ s p =>
      mk_edge num "MOUNTED_ON" (node_id a) (node_id b)
        (list_to_map [ ("slot", VStr s); ("position_x", VNum p.1.1);
                       ("position_y", VNum p.1.2); ("position_z", VNum p.2) ])
  | AddModuleToMission _ _ =>
      mk_edge num "PART_OF_MISSION" (node_id a) (node_id b) ∅
  | AddConstraintToModule _ _ =>
      mk_edge num "CONSTRAINED_BY" (node_id a) (node_id b) ∅
  | MarkCompatible _ _ =>
      mk_edge num "COMPATIBLE_WITH" (node_id a) (node_id b) ∅
  | MarkConflict _ _ r =>
      mk_edge num "CONFLICTS_WITH" (node_id a) (node_id b)
        (list_to_map [ ("reason", VStr r) ])
  end.

(** *** Further vocabulary *)

(** [g] with the edges [es] added. *)
Definition add_edges g (es : list (edge num)) : graph num :=
  mk_graph num (nodes g) (edges g ++ es).

(** The fields of a record, under a prefix. *)
Definition prefixed (pre : string) (d : list (string * value num))
    : list (string * value num) :=
  (λ kv, (pre +:+ kv.1, kv.2)) <$> d.

(** The properties of an Interface_Spec node, as key-value pairs. *)
Definition flattened_fields (interface_id interface_type : string)
    (mechanical : option (MechanicalInterface num))
    (electrical : option (ElectricalInterface num))
    (thermal : option (ThermalInterface num)) : list (string * value num) :=
  [ ("interface_id", VStr interface_id);
    ("interface_type", VStr interface_type);
    ("created_timestamp", VStr "datetime()") ]
  ++ (if mechanical is Some x then prefixed "mech_" (asdict_mechanical x) else [])
  ++ (if electrical is Some x then prefixed "elec_" (asdict_electrical x) else [])
  ++ (if thermal is Some x then prefixed "therm_" (asdict_thermal x) else []).

(** [x or 0] *)
Definition or_zero (x : num) : num := if num_truthy x then x else num_of_Z 0.

(** The power report over the modules [ms] of a mission named [name], one
    entry of [ms] per membership edge. *)
Definition budget_report_of (name : value num) (ms : list (node num))
    (budget : num) : budget_report num :=
  let total :=
    or_zero (cypher_sum ((λ m, prop m "power_draw_w") <$> ms)) in
  {| mission_name := name;
     total_power_w := total;
     total_power_kw := num_truediv total (num_of_Z 1000);
     budget_kw := budget;
     num_modules := length ms;
     within_budget := num_leb (num_truediv total (num_of_Z 1000)) budget;
     margin_kw := num_sub budget (num_truediv total (num_of_Z 1000));
     module_ids := collect ((λ m, prop m "module_id") <$> ms) |}.

(** The module count of a power result; a status record counts none. *)
Definition reported_modules (r : budget_result num) : nat :=
  match r with
  | BudgetReport r => num_modules r
  | BudgetStatus _ => 0
  end.

(** [v] is the module id of a module that [m] points to by an edge of type
    [ty]. *)
Definition points_to g (ty : string) (m : node num) (v : value num) : Prop :=
  ∃ m2 e, m2 ∈ nodes g ∧ label m2 = "UGV_Module"
          ∧ e ∈ edges g ∧ rel_type e = ty
          ∧ src e = node_id m ∧ dst e = node_id m2
          ∧ v = prop m2 "module_id".

(** Every edge joins two nodes of the graph. *)
Definition edges_closed g : Prop :=
  Forall (λ e, src e ∈ node_id <$> nodes g ∧ dst e ∈ node_id <$> nodes g)
         (edges g).

(** A string or null: what a business key holds in a graph built through
    the class's annotated signatures. *)
Definition is_text (v : value num) : bool :=
  match v with
  | VStr _ | VNull => true
  | _ => false
  end.

Definition text_keyed n : Prop :=
  (label n = "Mission_Profile" → is_text (prop n "mission_id") = true)
  ∧ (label n = "Constraint" → is_text (prop n "constraint_id") = true).

(** No mission and no constraint node has a number for its business id. *)
Definition string_keyed g : Prop := Forall text_keyed (nodes g).

End Patterns.

(** ** Scenarios over binary64 numbers *)

Definition sample_physical : PhysicalProperties float :=
  {| mass := 2.5%float; volume := 0.5%float;
     cg_offset := (0.25%float, 0%float, 0.125%float);
     material := "Al-6061-T6"; surface_treatment := Some "anodized" |}.

Definition sample_electrical (w : float) : ElectricalInterface float :=
  {| power_rail := "24VDC"; max_current_a := 5%float; power_draw_w := w;
     data_protocol := "CAN-FD"; telemetry_rate_hz := 10%float;
     latency_requirement_ms := 100%float |}.

Definition sample_mechanical : MechanicalInterface float :=
  {| connector_class := "ISO_UGV_Mount_v1";
     static_force_limits := [("Fx_max", 1500%float)];
     static_moment_limits := [("Mx_max", 150%float)];
     dynamic_acceleration_g := 2%float; shock_g := 10%float;
     deflection_limit_mm := 1.5%float; mounting_stiffness_min := 10%float;
     natural_freq_min := 80%float; allowed_rotation_deg := 0.5%float |}.

Definition sample_thermal : ThermalInterface float :=
  {| max_heat_dissipation_w := 120%float; operating_temp_min_c := (-10)%float;
     operating_temp_max_c := 50%float; thermal_resistance_k_per_w := 0.5%float |}.

(** Two missions, "MX" with modules "M1" (120 W) and "M2" (600 W), and
    "EMPTY" with none; "M1" is marked both compatible and conflicting with
    "M2". *)
Definition build_scenario : KG float (outcome bool) :=
  let! _ := create_mission_profile "MX" "Mission X" "recon" 4%float "" in
  let! _ := create_mission_profile "EMPTY" "Nothing" "recon" 1%float "" in
  let! _ := create_module "M1" "Sensing_Module" sample_physical
              None (Some (sample_electrical 120%float)) (Some sample_thermal) "" in
  let! _ := create_module "M2" "Manipulation_Module" sample_physical
              None (Some (sample_electrical 600%float)) None "" in
  let! _ := kg_ok (add_module_to_mission "M1" "MX") in
  let! _ := kg_ok (add_module_to_mission "M2" "MX") in
  let! _ := kg_ok (mark_compatible "M1" "M2") in
  kg_ok (mark_conflict "M1" "M2" "shared mast").

Definition scenario : graph float :=
  Eval vm_compute in (build_scenario empty_graph).2.

(** The two module nodes of "MX" and the two edges between them. *)
Definition scenario_m1 : node float :=
  Eval vm_compute in
    nth 0 (mission_modules scenario "MX") (mk_node float 0 "" ∅).

Definition scenario_m2 : node float :=
  Eval vm_compute in
    nth 1 (mission_modules scenario "MX") (mk_node float 0 "" ∅).

Definition scenario_conflict : edge float :=
  Eval vm_compute in
    nth 0 (rels_between scenario "CONFLICTS_WITH" scenario_m1 scenario_m2)
          (mk_edge float "" 0 0 ∅).

Definition scenario_compatible : edge float :=
  Eval vm_compute in
    nth 0 (rels_between scenario "COMPATIBLE_WITH" scenario_m1 scenario_m2)
          (mk_edge float "" 0 0 ∅).

(** The Mission_Profile node of "MX". *)
Definition scenario_mx : node float :=
  Eval vm_compute in
    nth 0 (resolve scenario "Mission_Profile" "mission_id" "MX")
          (mk_node float 0 "" ∅).

(** What the dependency lookup reports of "M1". *)
Definition scenario_m1_dependencies : Dependencies.report float :=
  Eval vm_compute in
    match find_module_dependencies scenario "M1" with
    | Dependencies.Report r => r
    | Dependencies.Status _ =>
        {| Dependencies.module_id := VNull; Dependencies.module_type := VNull;
           Dependencies.power_w := VNull; Dependencies.mounted_on := VNull;
           Dependencies.missions := []; Dependencies.interfaces := [];
           Dependencies.conflicts := []; Dependencies.compatible_with := [] |}
    end.

(** A chassis "C1" and a module "M1" that is not mounted. *)
Definition build_unmounted : KG float (outcome (option nat)) :=
  let! _ := create_base_chassis "C1" sample_physical 3.5%float 65%float
              3%float in
  create_module "M1" "Sensing_Module" sample_physical None
    (Some (sample_electrical 120%float)) (Some sample_thermal) "".

Definition unmounted : graph float :=
  Eval vm_compute in (build_unmounted empty_graph).2.

Definition unmounted_c1 : node float :=
  Eval vm_compute in
    nth 0 (resolve unmounted "Base_Chassis" "chassis_id" "C1")
          (mk_node float 0 "" ∅).

Definition unmounted_m1 : node float :=
  Eval vm_compute in
    nth 0 (resolve unmounted "UGV_Module" "module_id" "M1")
          (mk_node float 0 "" ∅).



(** The two missions of the example script, with one module in both. *)
Definition build_example_missions : KG float (outcome bool) :=
  let! _ := create_mission_profile "mission_recon_001" "Urban Reconnaissance"
              "reconnaissance" 4%float "" in
  let! _ := create_mission_profile "mission_eod_001" "EOD Disposal" "eod"
              2%float "" in
  let! _ := create_module "module_battery_extended_001" "Accessory_Module"
              sample_physical None (Some (sample_electrical 0%float)) None "" in
  let! _ := kg_ok (add_module_to_mission "module_battery_extended_001"
                     "mission_recon_001") in
  kg_ok (add_module_to_mission "module_battery_extended_001"
           "mission_eod_001").

Definition example_missions : graph float :=
  Eval vm_compute in (build_example_missions empty_graph).2.

(** ** The example script *)

Set Warnings "-inexact-float".

(** The population example.  A decimal literal is the binary64 number
    nearest to it, as in Python; an integer literal in a numeric field is
    taken at its binary64 value. *)
Definition populate_knowledge_graph : KG float (outcome unit) :=
  let chassis_physical : PhysicalProperties float :=
    {| mass := 25.0; volume := 0.15; cg_offset := (0.2, 0, 0.05);
       material := "Al-7075-T73"; surface_treatment := Some "anodized" |}%float in
  let! chassis_id :=
    create_base_chassis "chassis_001" chassis_physical 3.5%float 65.0%float
                        3%float in
  let optical_mechanical : MechanicalInterface float :=
    {| connector_class := "ISO_UGV_Mount_v1";
       static_force_limits := [("Fx_max", 1500); ("Fy_max", 800); ("Fz_max", 2000)];
       static_moment_limits := [("Mx_max", 150); ("My_max", 200); ("Mz_max", 100)];
       dynamic_acceleration_g := 2.0; shock_g := 10.0;
       deflection_limit_mm := 1.5; mounting_stiffness_min := 10.0;
       natural_freq_min := 80.0; allowed_rotation_deg := 0.5 |}%float in
  let optical_electrical : ElectricalInterface float :=
    {| power_rail := "24VDC"; max_current_a := 5.0; power_draw_w := 120.0;
       data_protocol := "CAN-FD"; telemetry_rate_hz := 10.0;
       latency_requirement_ms := 100.0 |}%float in
  let optical_thermal : ThermalInterface float :=
    {| max_heat_dissipation_w := 120.0; operating_temp_min_c := -10.0;
       operating_temp_max_c := 50.0; thermal_resistance_k_per_w := 0.5 |}%float in
  let optical_physical : PhysicalProperties float :=
    {| mass := 2.5; volume := 0.008; cg_offset := (0.05, 0, 0.02);
       material := "Al-6061-T6"; surface_treatment := Some "anodized" |}%float in
  let! optical_id :=
    create_module "module_optical_cam_001" "Optical_Module" optical_physical
      (Some optical_mechanical) (Some optical_electrical) (Some optical_thermal)
      "RGB/LWIR dual camera for reconnaissance" in
  let arm_electrical : ElectricalInterface float :=
    {| power_rail := "48VDC"; max_current_a := 15.0; power_draw_w := 600.0;
       data_protocol := "CAN-FD"; telemetry_rate_hz := 20.0;
       latency_requirement_ms := 50.0 |}%float in
  let arm_thermal : ThermalInterface float :=
    {| max_heat_dissipation_w := 600.0; operating_temp_min_c := -5.0;
       operating_temp_max_c := 45.0; thermal_resistance_k_per_w := 0.3 |}%float in
  let arm_physical : PhysicalProperties float :=
    {| mass := 18.0; volume := 0.025; cg_offset := (0.3, 0.05, 0.15);
       material := "CF-epoxy"; surface_treatment := Some "none" |}%float in
  let arm_mechanical : MechanicalInterface float :=
    {| connector_class := "ISO_UGV_Mount_v1";
       static_force_limits := [("Fx_max", 2000); ("Fy_max", 800); ("Fz_max", 2500)];
       static_moment_limits := [("Mx_max", 200); ("My_max", 250); ("Mz_max", 250)];
       dynamic_acceleration_g := 2.0; shock_g := 10.0;
       deflection_limit_mm := 1.5; mounting_stiffness_min := 10.0;
       natural_freq_min := 85.0; allowed_rotation_deg := 0.5 |}%float in
  let! arm_id :=
    create_module "module_arm_eod_001" "Manipulation_Module" arm_physical
      (Some arm_mechanical) (Some arm_electrical) (Some arm_thermal)
      "6-DOF articulated arm for EOD tasks" in
  let battery_electrical : ElectricalInterface float :=
    {| power_rail := "24VDC"; max_current_a := 50.0; power_draw_w := 0.0;
       data_protocol := "CAN-FD"; telemetry_rate_hz := 1.0;
       latency_requirement_ms := 1000.0 |}%float in
  let battery_thermal : ThermalInterface float :=
    {| max_heat_dissipation_w := 100.0; operating_temp_min_c := 0.0;
       operating_temp_max_c := 40.0; thermal_resistance_k_per_w := 1.0 |}%float in
  let battery_physical : PhysicalProperties float :=
    {| mass := 12.0; volume := 0.012; cg_offset := (0.1, 0, 0.01);
       material := "Al-7075-T73"; surface_treatment := Some "anodized" |}%float in
  let! battery_id :=
    create_module "module_battery_extended_001" "Accessory_Module"
      battery_physical None (Some battery_electrical) (Some battery_thermal)
      "Extended 4-hour battery pack" in
  let! recon_mission_id :=
    create_mission_profile "mission_recon_001" "Urban Reconnaissance"
      "reconnaissance" 4.0%float
      "Multi-building surveillance with RGB/LWIR feed" in
  let! eod_mission_id :=
    create_mission_profile "mission_eod_001" "EOD Disposal" "eod" 2.0%float
      "Explosive device identification and safe disposal" in
  let! _ := kg_ok (mount_module_on_chassis "module_optical_cam_001" "chassis_001"
              "front_mast" (0, 0.15, 0.3)%float) in
  let! _ := kg_ok (mount_module_on_chassis "module_arm_eod_001" "chassis_001"
              "rear_aft" (0.4, 0, 0.1)%float) in
  let! _ := kg_ok (mount_module_on_chassis "module_battery_extended_001" "chassis_001"
              "center_belly" (0.2, 0, -0.05)%float) in
  let! _ := kg_ok (add_module_to_mission_any "module_optical_cam_001"
              (id_value recon_mission_id)) in
  let! _ := kg_ok (add_module_to_mission_any "module_battery_extended_001"
              (id_value recon_mission_id)) in
  let! _ := kg_ok (add_module_to_mission_any "module_arm_eod_001"
              (id_value eod_mission_id)) in
  let! _ := kg_ok (add_module_to_mission_any "module_battery_extended_001"
              (id_value eod_mission_id)) in
  let! _ := kg_ok (mark_compatible "module_optical_cam_001" "module_arm_eod_001") in
  let! _ := kg_ok (mark_compatible "module_optical_cam_001"
              "module_battery_extended_001") in
  let! _ := kg_ok (mark_compatible "module_arm_eod_001"
              "module_battery_extended_001") in
  let! power_constraint_id :=
    create_constraint "constraint_power_limit" "power_budget" 3500.0%float
      "watts" "Maximum continuous power draw from all modules" in
  let! thermal_constraint_id :=
    create_constraint "constraint_thermal_limit" "thermal_budget" 65.0%float
      "celsius" "Chassis case temperature limit to preserve battery life" in
  let! freq_constraint_id :=
    create_constraint "constraint_freq_min" "natural_frequency" 80.0%float
      "hertz" "Minimum system natural frequency to avoid motor harmonics" in
  let! _ := kg_ok (add_constraint_to_module_any "module_optical_cam_001"
              (id_value power_constraint_id)) in
  let! _ := kg_ok (add_constraint_to_module_any "module_optical_cam_001"
              (id_value thermal_constraint_id)) in
  let! _ := kg_ok (add_constraint_to_module_any "module_optical_cam_001"
              (id_value freq_constraint_id)) in
  let! _ := kg_ok (add_constraint_to_module_any "module_arm_eod_001"
              (id_value power_constraint_id)) in
  let! _ := kg_ok (add_constraint_to_module_any "module_arm_eod_001"
              (id_value thermal_constraint_id)) in
  let! _ := kg_ok (add_constraint_to_module_any "module_arm_eod_001"
              (id_value freq_constraint_id)) in
  let! _ := kg_ok (add_constraint_to_module_any "module_battery_extended_001"
              (id_value power_constraint_id)) in
  let! _ := kg_ok (add_constraint_to_module_any "module_battery_extended_001"
              (id_value thermal_constraint_id)) in
  kg_ret (Returned tt).

Set Warnings "inexact-float".

(** What is left of [run_example_queries] once the printed text is dropped:
    the calls and the first subscript on each result.  A status record has
    none of the keys of a report; the compatibility report has all of its
    keys. *)
Definition budget_item (r : budget_result float) (key : string)
    : outcome (budget_report float) :=
  match r with
  | BudgetReport x => Returned x
  | BudgetStatus _ => Raised (KeyError key)
  end.

Definition dependencies_item (r : Dependencies.result float) (key : string)
    : outcome (Dependencies.report float) :=
  match r with
  | Dependencies.Report x => Returned x
  | Dependencies.Status _ => Raised (KeyError key)
  end.

Definition manifest_item (r : Manifest.result float) (key : string)
    : outcome (Manifest.report float) :=
  match r with
  | Manifest.Report x => Returned x
  | Manifest.Status _ => Raised (KeyError key)
  end.

Definition run_example_queries
    (compat_rows : graph float → string → list (compat_record float))
    (manifest_rows : graph float → string → list (manifest_row float))
    (g : graph float) : outcome unit :=
  recon_power ← budget_item
    (validate_mission_power_budget g "mission_recon_001" 3.5%float)
    "total_power_w";
  eod_power ← budget_item
    (validate_mission_power_budget g "mission_eod_001" 3.5%float)
    "total_power_w";
  recon_compat ← get_mission_compatibility compat_rows g "mission_recon_001";
  eod_compat ← get_mission_compatibility compat_rows g "mission_eod_001";
  optical_deps ← dependencies_item
    (find_module_dependencies g "module_optical_cam_001") "module_type";
  arm_deps ← dependencies_item
    (find_module_dependencies g "module_arm_eod_001") "module_type";
  recon_manifest ← get_mission_manifest manifest_rows g "mission_recon_001"
                     ≫= λ r, manifest_item r "mission_name";
  eod_manifest ← get_mission_manifest manifest_rows g "mission_eod_001"
                   ≫= λ r, manifest_item r "mission_name";
  Returned tt.

(** * Properties *)

Section Facts.
Context {num : Type} `{!Number num}.

Implicit Types (g : graph num) (n a b m : node num) (e : edge num).
Implicit Types (v : value num) (params : gmap string (value num)).

(** ** Patterns *)

Lemma cond_holds_business_id params (key p id : string) n :
  params !! p = Some (VStr id) →
  cond_holds params (PropIs key p) n
  = match props n !! key with
    | Some (VStr s) => bool_decide (s = id)
    | _ => false
    end.
Proof.
  intros Hp. unfold cond_holds, eval_param, prop. rewrite Hp. simpl.
  destruct (props n !! key) as [[]|]; reflexivity.
Qed.

Lemma match_nodes_resolve g params (lbl key p id : string) :
  params !! p = Some (VStr id) →
  match_nodes g params {| pat_label := lbl; pat_cond := PropIs key p |}
  = resolve g lbl key id.
Proof.
  intros Hp. unfold match_nodes, resolve. apply List.filter_ext.
  intros n. unfold has_business_id. cbn [pat_label pat_cond].
  by rewrite (cond_holds_business_id _ _ _ id).
Qed.

Lemma elem_of_filter_bool {A} (f : A → bool) (l : list A) x :
  x ∈ List.filter f l ↔ x ∈ l ∧ f x = true.
Proof. rewrite !list_elem_of_In. apply filter_In. Qed.

Lemma match_part_of_mission_resolve g (mission_id : string) :
  match_part_of_mission g mission_id
  = mission ← resolve g "Mission_Profile" "mission_id" mission_id;
    m ← match_sources g "UGV_Module" "PART_OF_MISSION" mission;
    [(m, mission)].
Proof.
  unfold match_part_of_mission, mission_pattern.
  by rewrite (match_nodes_resolve _ _ _ _ _ mission_id).
Qed.

Lemma elem_of_rels_between g (ty : string) a b e :
  e ∈ rels_between g ty a b
  ↔ e ∈ edges g ∧ rel_type e = ty ∧ src e = node_id a ∧ dst e = node_id b.
Proof.
  unfold rels_between. rewrite elem_of_filter_bool, !andb_true_iff.
  rewrite !bool_decide_eq_true. tauto.
Qed.

Lemma elem_of_match_sources g (lbl ty : string) (t m : node num) :
  m ∈ match_sources g lbl ty t
  ↔ m ∈ nodes g ∧ label m = lbl ∧
    ∃ e, e ∈ edges g ∧ rel_type e = ty ∧ src e = node_id m ∧ dst e = node_id t.
Proof.
  unfold match_sources. rewrite list_elem_of_bind. split.
  - intros (m' & Hin & Hm'). apply list_elem_of_bind in Hin as (e & Hin & He).
    apply list_elem_of_singleton in Hin as ->.
    apply elem_of_filter_bool in Hm' as [? ?%bool_decide_eq_true].
    apply elem_of_rels_between in He. eauto.
  - intros (Hm & Hl & e & He). exists m. split.
    + apply list_elem_of_bind. exists e. split; [apply list_elem_of_here|].
      by apply elem_of_rels_between.
    + apply elem_of_filter_bool. by rewrite bool_decide_eq_true.
Qed.

Lemma elem_of_mission_modules g (mission_id : string) m :
  m ∈ mission_modules g mission_id ↔ linked g mission_id m.
Proof.
  unfold mission_modules, linked. rewrite match_part_of_mission_resolve.
  rewrite list_elem_of_fmap. split.
  - intros ([m' mission] & -> & Hin). simpl.
    apply list_elem_of_bind in Hin as (mi & Hin & Hmi).
    apply list_elem_of_bind in Hin as (m0 & Hin & Hm0).
    apply list_elem_of_singleton in Hin. injection Hin as -> ->.
    apply elem_of_match_sources in Hm0 as (Hn & Hl & e & He).
    split; [done|]. split; [done|]. eauto 10.
  - intros (Hm & Hl & mission & e & Hmi & He). exists (m, mission).
    split; [done|]. apply list_elem_of_bind. exists mission. split; [|done].
    apply list_elem_of_bind. exists m. split; [apply list_elem_of_here|].
    apply elem_of_match_sources. eauto.
Qed.

Lemma no_linked_no_rows g (mission_id : string) :
  (∀ m, ¬ linked g mission_id m) → match_part_of_mission g mission_id = [].
Proof.
  intros Hno. destruct (match_part_of_mission g mission_id) as [|[m mi] rows] eqn:E;
    [done|].
  destruct (Hno m). apply elem_of_mission_modules. unfold mission_modules.
  rewrite E. apply list_elem_of_here.
Qed.

Lemma unresolved_not_linked g (mission_id : string) m :
  resolve g "Mission_Profile" "mission_id" mission_id = [] →
  ¬ linked g mission_id m.
Proof.
  intros Hnone (_ & _ & mission & e & Hmi & _). rewrite Hnone in Hmi.
  by apply not_elem_of_nil in Hmi.
Qed.

(** ** Grouping *)

Lemma group_insert_not_nil {A} (k : list (value num)) (r : A) gs :
  group_insert k r gs ≠ [].
Proof. destruct gs as [|[k' rs] gs]; simpl; [done|]. by destruct (keys_equiv k' k). Qed.

Lemma group_insert_members {A} (k : list (value num)) (r : A) gs :
  Forall (λ grp, grp.2 ≠ []) gs →
  Forall (λ grp, grp.2 ≠ []) (group_insert k r gs).
Proof.
  induction 1 as [|[k' rs] gs Hrs Hgs IH]; simpl.
  - repeat constructor. done.
  - destruct (keys_equiv k' k); constructor; simpl in *; try done.
    by destruct rs.
Qed.

Lemma group_by_snoc {A} (key : A → list (value num)) rows r :
  group_by key (rows ++ [r]) = group_insert (key r) r (group_by key rows).
Proof. unfold group_by. by rewrite foldl_app. Qed.

Lemma group_by_not_nil {A} (key : A → list (value num)) rows :
  rows ≠ [] → group_by key rows ≠ [].
Proof.
  destruct rows as [|r0 rows _] using rev_ind; [done|].
  intros _. rewrite group_by_snoc. apply group_insert_not_nil.
Qed.

Lemma group_by_members {A} (key : A → list (value num)) rows :
  Forall (λ grp, grp.2 ≠ []) (group_by key rows).
Proof.
  induction rows as [|r rows IH] using rev_ind; [constructor|].
  rewrite group_by_snoc. by apply group_insert_members.
Qed.

Lemma rows_linked g (mission_id : string) :
  mission_modules g mission_id ≠ [] → ∃ m, linked g mission_id m.
Proof.
  destruct (mission_modules g mission_id) as [|m ms] eqn:E; [done|].
  intros _. exists m. apply elem_of_mission_modules. rewrite E.
  apply list_elem_of_here.
Qed.

Lemma no_rows_not_linked g (mission_id : string) :
  mission_modules g mission_id = [] → ∀ m, ¬ linked g mission_id m.
Proof.
  intros E m Hm%elem_of_mission_modules. rewrite E in Hm.
  by apply not_elem_of_nil in Hm.
Qed.

(** ** Power-budget validation *)

Lemma power_query_nil g (mission_id : string) :
  (∀ m, ¬ linked g mission_id m) → power_query g mission_id = [].
Proof. intros Hno. unfold power_query. by rewrite no_linked_no_rows. Qed.

Lemma power_query_not_nil g (mission_id : string) :
  (∃ m, linked g mission_id m) → power_query g mission_id ≠ [].
Proof.
  intros [m Hm%elem_of_mission_modules]. unfold power_query.
  intros Hnil%fmap_nil_inv. revert Hnil. apply group_by_not_nil.
  intros E. unfold mission_modules in Hm. rewrite E in Hm.
  by apply not_elem_of_nil in Hm.
Qed.

Lemma validate_without_rows g (mission_id : string) (budget : num) :
  power_query g mission_id = [] →
  validate_mission_power_budget g mission_id budget = no_modules_found.
Proof. intros Hnil. unfold validate_mission_power_budget. by rewrite Hnil. Qed.

(** C6: a mission id to which no module is linked gets the explicit
    [{"status": "invalid", "reason": "No modules found for mission"}], not a
    report that passes the budget. *)
Theorem validate_mission_power_budget_no_modules g (mission_id : string)
    (budget : num) :
  (∀ m, ¬ linked g mission_id m) →
  validate_mission_power_budget g mission_id budget = no_modules_found.
Proof.
  intros Hno. apply validate_without_rows. by apply power_query_nil.
Qed.

(** C9: a mission id that resolves to no Mission_Profile node gets exactly
    the record that an existing mission without modules gets; the two cases
    cannot be told apart from the result. *)
Theorem validate_mission_power_budget_unknown_mission g g'
    (mission_id mission_id' : string) (budget budget' : num) :
  resolve g "Mission_Profile" "mission_id" mission_id = [] →
  resolve g' "Mission_Profile" "mission_id" mission_id' ≠ [] →
  (∀ m, ¬ linked g' mission_id' m) →
  validate_mission_power_budget g mission_id budget = no_modules_found
  ∧ validate_mission_power_budget g mission_id budget
    = validate_mission_power_budget g' mission_id' budget'.
Proof.
  intros Hunknown _ Hempty.
  assert (power_query g mission_id = []) as Hrows.
  { apply power_query_nil. intros m. by apply unresolved_not_linked. }
  rewrite (validate_without_rows g mission_id budget Hrows).
  split; [done|]. symmetry.
  apply validate_without_rows. by apply power_query_nil.
Qed.

(** C1: with at least one linked module the result is a report in which
    total_power_kw is total_power_w / 1000, margin_kw is budget_kw minus
    total_power_kw and within_budget is total_power_kw <= budget_kw; when
    total_power_kw == budget_kw, within_budget is true.  The last part uses
    that [==] implies [<=] on numbers. *)
Theorem validate_mission_power_budget_report g (mission_id : string)
    (budget : num) :
  (∀ x y : num, num_eqb x y = true → num_leb x y = true) →
  (∃ m, linked g mission_id m) →
  ∃ r, validate_mission_power_budget g mission_id budget = BudgetReport r
       ∧ budget_kw r = budget
       ∧ total_power_kw r = num_truediv (total_power_w r) (num_of_Z 1000)
       ∧ margin_kw r = num_sub (budget_kw r) (total_power_kw r)
       ∧ within_budget r = num_leb (total_power_kw r) (budget_kw r)
       ∧ (num_eqb (total_power_kw r) (budget_kw r) = true →
          within_budget r = true).
Proof.
  intros Hle Hlinked%power_query_not_nil. unfold validate_mission_power_budget.
  destruct (power_query g mission_id) as [|row rows]; [done|].
  eexists. split; [reflexivity|]. simpl. repeat split. apply Hle.
Qed.

(** ** Node creation *)

Lemma kg_bind_run {A B} (c : KG num A) (k : A → KG num B) g x g' :
  c g = (x, g') → kg_bind c k g = k x g'.
Proof. unfold kg_bind. by intros ->. Qed.

Lemma kg_try_run {A B} (c : KG num (outcome A)) (k : A → KG num (outcome B))
    g x g' :
  c g = (Returned x, g') → kg_try c k g = k x g'.
Proof. unfold kg_try. by intros ->. Qed.

Lemma kg_try_raise {A B} (c : KG num (outcome A)) (k : A → KG num (outcome B))
    g (x : exn) g' :
  c g = (Raised x, g') → kg_try c k g = (Raised x, g').
Proof. unfold kg_try. by intros ->. Qed.

Lemma kg_ok_run {A} (c : KG num A) g x g' :
  c g = (x, g') → kg_ok c g = (Returned x, g').
Proof. unfold kg_ok, kg_bind, kg_ret. by intros ->. Qed.

Lemma create_node_run (lbl : string) (properties : gmap string (value num)) g :
  all_storable (eval_props (map_imap (λ k _, Some (EParam k)) properties)
                           properties) = true →
  _create_node lbl properties g
  = (Returned (Some (fresh_id g)),
     mk_graph num (nodes g ++ [mk_node num (fresh_id g) lbl
        (eval_props (map_imap (λ k _, Some (EParam k)) properties) properties)]) (edges g)).
Proof.
  intros Hs. unfold _create_node, kg_try, exec_create_node. by rewrite Hs.
Qed.

Lemma create_node_refused (lbl : string) (properties : gmap string (value num)) g :
  all_storable (eval_props (map_imap (λ k _, Some (EParam k)) properties)
                           properties) = false →
  _create_node lbl properties g = (Raised CypherTypeError, g).
Proof.
  intros Hs. unfold _create_node, kg_try, exec_create_node. by rewrite Hs.
Qed.

Lemma eval_props_self (properties : gmap string (value num)) (k : string) v :
  properties !! k = Some v → v ≠ VNull →
  eval_props (map_imap (λ k _, Some (EParam k)) properties) properties !! k = Some v.
Proof.
  intros Hk Hv. unfold eval_props. rewrite lookup_omap, map_lookup_imap, Hk.
  simpl. unfold eval_param. rewrite Hk. simpl. by destruct v.
Qed.

Lemma fresh_id_lt g n : n ∈ nodes g → node_id n < fresh_id g.
Proof.
  unfold fresh_id, next_id. induction 1 as [n ns|n n' ns Hin IH]; simpl; lia.
Qed.

Lemma next_id_snoc (ns : list (node num)) n :
  next_id (ns ++ [n]) = Nat.max (next_id ns) (S (node_id n)).
Proof.
  unfold next_id. induction ns as [|n' ns IH]; simpl; [lia|].
  rewrite IH. lia.
Qed.

Lemma filter_node_is_fresh g (lbl : string) (i : nat) :
  (fresh_id g ≤ i)%nat → List.filter (node_is lbl i) (nodes g) = [].
Proof.
  intros Hi. destruct (List.filter (node_is lbl i) (nodes g)) as [|n ns] eqn:E; [done|].
  assert (n ∈ n :: ns) as Hin by apply list_elem_of_here.
  rewrite <- E in Hin. apply list_elem_of_In, filter_In in Hin as [Hin Hn].
  apply list_elem_of_In, fresh_id_lt in Hin.
  unfold node_is in Hn. apply andb_true_iff in Hn as [_ Hn%bool_decide_eq_true]. lia.
Qed.

Lemma match_nodes_by_id g (params : gmap string (value num)) (lbl p : string) (i : nat) :
  params !! p = Some (VId i) →
  match_nodes g params {| pat_label := lbl; pat_cond := IdIs p |}
  = List.filter (node_is lbl i) (nodes g).
Proof.
  intros Hp. unfold match_nodes. apply List.filter_ext. intros n.
  unfold node_is, cond_holds, eval_param. cbn [pat_label pat_cond].
  by rewrite Hp.
Qed.

Lemma create_relationship_run g (la : string) (i : nat) (ty lb : string) (j : nat) :
  _create_relationship la (Some i) ty lb (Some j) None g
  = let created :=
      a ← List.filter (node_is la i) (nodes g);
      b ← List.filter (node_is lb j) (nodes g);
      [mk_edge num ty (node_id a) (node_id b) ∅] in
    ((0 <? length created)%nat, mk_graph num (nodes g) (edges g ++ created)).
Proof.
  unfold _create_relationship, kg_bind, exec_match_create_rel, kg_ret. simpl.
  rewrite (match_nodes_by_id _ _ _ "from_id" i) by reflexivity.
  rewrite (match_nodes_by_id _ _ _ "to_id" j) by reflexivity.
  unfold eval_props. rewrite omap_empty. reflexivity.
Qed.

(** Without a mechanical record every property is a string or a number. *)
Lemma create_interface_spec_run g (iid ity : string) elec therm :
  ∃ n, create_interface_spec iid ity None elec therm g
       = (Returned (Some (node_id n)), mk_graph num (nodes g ++ [n]) (edges g))
     ∧ node_id n = fresh_id g
     ∧ label n = "Interface_Spec"
     ∧ props n !! "interface_id" = Some (VStr iid)
     ∧ props n !! "interface_type" = Some (VStr ity)
     ∧ props n !! "created_timestamp" = Some (VStr "datetime()").
Proof.
  unfold create_interface_spec.
  erewrite kg_try_run;
    [|apply create_node_run; destruct elec, therm; vm_compute; reflexivity].
  unfold kg_ret. eexists (mk_node num _ _ _). split; [reflexivity|].
  split; [reflexivity|]. split; [reflexivity|]. cbn [props].
  split; [|split]; (apply eval_props_self; [|done]);
    destruct elec, therm; vm_compute; reflexivity.
Qed.

(** With one, [static_force_limits] is a map, which the store refuses. *)
Lemma create_interface_spec_mechanical g (iid ity : string) me elec therm :
  create_interface_spec iid ity (Some me) elec therm g
  = (Raised CypherTypeError, g).
Proof.
  unfold create_interface_spec.
  erewrite kg_try_raise; [reflexivity|].
  apply create_node_refused. destruct elec, therm; vm_compute; reflexivity.
Qed.

Lemma filter_node_is_snoc g (lbl : string) (i : nat) m n :
  List.filter (node_is lbl i) (nodes g) = [m] →
  node_is lbl i n = false →
  List.filter (node_is lbl i) (nodes g ++ [n]) = [m].
Proof. intros Hm Hn. rewrite List.filter_app, Hm. simpl. by rewrite Hn. Qed.

Lemma attach_interface g (f : nat) mn (iid kind : string) elec therm :
  List.filter (node_is "UGV_Module" f) (nodes g) = [mn] →
  ∃ inode,
    (let! r := create_interface_spec iid kind None elec therm in
     kg_ok (_create_relationship "UGV_Module" (Some f) "HAS_INTERFACE"
                                 "Interface_Spec" r None)) g
    = (Returned true,
       mk_graph num (nodes g ++ [inode])
         (edges g ++ [mk_edge num "HAS_INTERFACE" f (node_id inode) ∅]))
    ∧ node_id inode = fresh_id g
    ∧ label inode = "Interface_Spec"
    ∧ props inode !! "interface_id" = Some (VStr iid)
    ∧ props inode !! "interface_type" = Some (VStr kind).
Proof.
  intros Hmn.
  destruct (create_interface_spec_run g iid kind elec therm)
    as (inode & Erun & Hid & Hlbl & Hiid & Hity & _).
  exists inode. split; [|done].
  rewrite (kg_try_run _ _ _ _ _ Erun).
  erewrite kg_ok_run; [|apply create_relationship_run].
  cbn [nodes edges].
  assert (mn ∈ nodes g ∧ node_is "UGV_Module" f mn = true) as [Hin Hismn].
  { rewrite !list_elem_of_In. apply filter_In. rewrite Hmn. by left. }
  assert (node_id mn = f) as Hf.
  { unfold node_is in Hismn. apply andb_true_iff in Hismn as [_ Hb].
    by apply bool_decide_eq_true in Hb. }
  assert (f < fresh_id g) as Hlt by (rewrite <- Hf; by apply fresh_id_lt).
  rewrite (filter_node_is_snoc g _ _ mn inode Hmn).
  2:{ unfold node_is. rewrite Hlbl. reflexivity. }
  rewrite List.filter_app, filter_node_is_fresh by lia.
  simpl. unfold node_is. rewrite Hlbl, Hid.
  rewrite !bool_decide_eq_true_2 by done. simpl. by rewrite Hf, Hid.
Qed.

Lemma graph_eq (ns ns' : list (node num)) (es es' : list (edge num)) :
  ns = ns' → es = es' → mk_graph num ns es = mk_graph num ns' es'.
Proof. by intros -> ->. Qed.

Ltac attach_block H :=
  lazymatch goal with
  | |- context [kg_try (kg_try (create_interface_spec ?iid ?k None ?b ?c) _) _ ?G] =>
      let i := fresh "inode" in
      let E := fresh "E" in
      let Hid := fresh "Hid" in
      let Hl := fresh "Hl" in
      let Hp := fresh "Hp" in
      let Ht := fresh "Ht" in
      destruct (attach_interface G _ _ iid k b c H) as (i & E & Hid & Hl & Hp & Ht);
      rewrite (kg_try_run _ _ _ _ _ E);
      clear E; unfold fresh_id in Hid; cbn [nodes edges] in Hid;
      rewrite next_id_snoc in Hid;
      apply (filter_node_is_snoc G _ _ _ i) in H;
      [ cbn [nodes] in H | unfold node_is; rewrite Hl; reflexivity ]
  | |- context [kg_try (kg_ret (Returned false)) _ ?G] =>
      rewrite (kg_try_run (kg_ret (Returned false)) _ G false G eq_refl)
  end.

Ltac module_node_step g elec :=
  unfold create_module;
  lazymatch goal with
  | |- context [_create_node ?l ?p] =>
      let Hs := fresh "Hs" in
      assert (all_storable
                (eval_props (map_imap (λ k _, Some (EParam k)) p) p) = true)
        as Hs by (destruct elec; vm_compute; reflexivity);
      rewrite (kg_try_run _ _ _ _ _ (create_node_run l p g Hs)); clear Hs
  end;
  lazymatch goal with
  | |- context [mk_node num (fresh_id g) "UGV_Module" ?p] =>
      set (mnode := mk_node num (fresh_id g) "UGV_Module" p)
  end;
  lazymatch goal with
  | mn := mk_node _ _ _ _ |- _ =>
      assert (props mn !! "module_id" = Some (VStr _)) as Hmid
        by (subst mn; cbn [props]; apply eval_props_self; [|done];
            destruct elec; vm_compute; reflexivity);
      assert (props mn !! "module_type" = Some (VStr _)) as Hmty
        by (subst mn; cbn [props]; apply eval_props_self; [|done];
            destruct elec; vm_compute; reflexivity);
      assert (props mn !! "mass_kg" = Some (VNum (mass _))) as Hmass
        by (subst mn; cbn [props]; apply eval_props_self; [|done];
            destruct elec; vm_compute; reflexivity);
      assert (props mn !! "power_draw_w"
              = (λ el, VNum (power_draw_w el)) <$> elec) as Hpow
        by (subst mn; cbn [props]; destruct elec;
            [apply eval_props_self; [|done]|]; vm_compute; reflexivity);
      assert (label mn = "UGV_Module") as Hlm by reflexivity;
      assert (node_id mn = fresh_id g) as Hidm by reflexivity
  end.

(** Without a mechanical record: the module node, then one interface node
    and one edge per declared kind. *)
Lemma create_module_run g (module_id module_type : string) physical
    elec therm (description : string) :
  ∃ mnode ifaces,
    create_module module_id module_type physical None elec therm description g
    = (Returned (Some (node_id mnode)),
       mk_graph num (nodes g ++ mnode :: ifaces)
                (edges g ++ (has_interface mnode <$> ifaces)))
    ∧ label mnode = "UGV_Module"
    ∧ props mnode !! "module_id" = Some (VStr module_id)
    ∧ props mnode !! "module_type" = Some (VStr module_type)
    ∧ props mnode !! "power_draw_w" = (λ el, VNum (power_draw_w el)) <$> elec
    ∧ props mnode !! "mass_kg" = Some (VNum (mass physical))
    ∧ Forall2 (interface_of module_id) ifaces (declared_kinds None elec therm)
    ∧ node_id <$> mnode :: ifaces = seq (fresh_id g) (S (length ifaces)).
Proof.
  module_node_step g elec.
  assert (List.filter (node_is "UGV_Module" (fresh_id g))
            (nodes (mk_graph num (nodes g ++ [mnode]) (edges g))) = [mnode]) as H.
  { cbn [nodes]. rewrite List.filter_app, filter_node_is_fresh by lia. simpl.
    unfold node_is. simpl. by rewrite !bool_decide_eq_true_2. }
  clearbody mnode. unfold fresh_id in *.
  exists mnode.
  destruct elec as [el|], therm as [th|];
    repeat attach_block H; unfold kg_ret.
  all: eexists; split;
    [ cbn [nodes edges]; rewrite <- Hidm, <- ?app_assoc; cbn [app];
      apply (f_equal (pair _)), graph_eq; [reflexivity | by rewrite ?app_nil_r] | ].
  all: split; [done|]; split; [done|]; split; [done|]; split; [done|];
       split; [done|]; split;
    [ repeat (constructor; [by repeat split|]); constructor | ].
  all: cbn [fmap list_fmap length seq].
  all: rewrite ?next_id_snoc in *.
  all: repeat (f_equal; try lia).
Qed.

(** With a mechanical record: the module node is written, the first
    interface node is refused, and nothing after it is attempted. *)
Lemma create_module_mechanical g (module_id module_type : string) physical
    me elec therm (description : string) :
  ∃ mnode,
    create_module module_id module_type physical (Some me) elec therm
      description g
    = (Raised CypherTypeError, mk_graph num (nodes g ++ [mnode]) (edges g))
    ∧ node_id mnode = fresh_id g
    ∧ label mnode = "UGV_Module"
    ∧ props mnode !! "module_id" = Some (VStr module_id).
Proof.
  module_node_step g elec. exists mnode. split; [|done].
  erewrite kg_try_raise; [reflexivity|].
  erewrite kg_try_raise; [reflexivity|].
  apply create_interface_spec_mechanical.
Qed.

Lemma create_plain_run (lbl key id : string)
    (properties : gmap string (value num)) g :
  properties !! key = Some (VStr id) →
  all_storable (eval_props (map_imap (λ k _, Some (EParam k)) properties)
                           properties) = true →
  ∃ n, _create_node lbl properties g
       = (Returned (Some (node_id n)),
          mk_graph num (nodes g ++ [n]) (edges g))
     ∧ node_id n = fresh_id g
     ∧ label n = lbl
     ∧ props n !! key = Some (VStr id).
Proof.
  intros Hkey Hs. rewrite create_node_run by done. eexists (mk_node num _ _ _).
  split; [reflexivity|]. split; [reflexivity|]. split; [reflexivity|].
  cbn [props]. by apply eval_props_self.
Qed.

(** The three constructors that write one node from strings and numbers. *)
Lemma create_base_chassis_run g (chassis_id : string) physical
    (power_budget_kw thermal_limit_c num_module_slots : num) :
  ∃ n, create_base_chassis chassis_id physical power_budget_kw
         thermal_limit_c num_module_slots g
       = (Returned (Some (node_id n)),
          mk_graph num (nodes g ++ [n]) (edges g))
     ∧ node_id n = fresh_id g
     ∧ label n = "Base_Chassis"
     ∧ props n !! "chassis_id" = Some (VStr chassis_id).
Proof.
  unfold create_base_chassis.
  lazymatch goal with
  | |- context [_create_node ?lbl ?properties] =>
      destruct (create_plain_run lbl "chassis_id" chassis_id properties g)
        as (n & Erun & ? & ? & ?); [vm_compute; reflexivity..|]
  end.
  exists n. rewrite (kg_try_run _ _ _ _ _ Erun). unfold kg_ret.
  split_and!; [reflexivity|assumption..].
Qed.

Lemma create_mission_profile_run g (mission_id mission_name mission_type : string)
    (duration_hours : num) (description : string) :
  ∃ n, create_mission_profile mission_id mission_name mission_type
         duration_hours description g
       = (Returned (Some (node_id n)),
          mk_graph num (nodes g ++ [n]) (edges g))
     ∧ node_id n = fresh_id g
     ∧ label n = "Mission_Profile"
     ∧ props n !! "mission_id" = Some (VStr mission_id).
Proof.
  unfold create_mission_profile.
  lazymatch goal with
  | |- context [_create_node ?lbl ?properties] =>
      destruct (create_plain_run lbl "mission_id" mission_id properties g)
        as (n & Erun & ? & ? & ?); [vm_compute; reflexivity..|]
  end.
  exists n. rewrite (kg_try_run _ _ _ _ _ Erun). unfold kg_ret.
  split_and!; [reflexivity|assumption..].
Qed.

Lemma create_constraint_run g (constraint_id constraint_type : string)
    (limit_value : num) (unit description : string) :
  ∃ n, create_constraint constraint_id constraint_type limit_value unit
         description g
       = (Returned (Some (node_id n)),
          mk_graph num (nodes g ++ [n]) (edges g))
     ∧ node_id n = fresh_id g
     ∧ label n = "Constraint"
     ∧ props n !! "constraint_id" = Some (VStr constraint_id).
Proof.
  unfold create_constraint.
  lazymatch goal with
  | |- context [_create_node ?lbl ?properties] =>
      destruct (create_plain_run lbl "constraint_id" constraint_id properties g)
        as (n & Erun & ? & ? & ?); [vm_compute; reflexivity..|]
  end.
  exists n. rewrite (kg_try_run _ _ _ _ _ Erun). unfold kg_ret.
  split_and!; [reflexivity|assumption..].
Qed.



(** ** Relationship management *)

(** What the five statements have in common, once both ends are read as
    business ids. *)
Lemma exec_match_create_rel_resolve g (la ka pa ia lb kb pb ib ty : string)
    (pexprs : gmap string cexpr) params :
  params !! pa = Some (VStr ia) →
  params !! pb = Some (VStr ib) →
  exec_match_create_rel {| pat_label := la; pat_cond := PropIs ka pa |}
                        {| pat_label := lb; pat_cond := PropIs kb pb |}
                        ty pexprs params g
  = let created :=
      a ← resolve g la ka ia;
      b ← resolve g lb kb ib;
      [mk_edge num ty (node_id a) (node_id b) (eval_props pexprs params)] in
    (created, mk_graph num (nodes g) (edges g ++ created)).
Proof.
  intros Ha Hb. unfold exec_match_create_rel.
  by rewrite (match_nodes_resolve g params la ka pa ia Ha),
             (match_nodes_resolve g params lb kb pb ib Hb).
Qed.

Lemma rel_call_run (c : rel_call) g :
  run_rel_call c g
  = let created :=
      a ← rel_call_sources g c;
      b ← rel_call_targets g c;
      [rel_call_edge c a b] in
    ((0 <? length created)%nat, mk_graph num (nodes g) (edges g ++ created)).
Proof.
  destruct c as [m ch sl pos | m mi | m co | m1 m2 | m1 m2 r];
    cbn [run_rel_call rel_call_sources rel_call_targets rel_call_edge].
  - unfold mount_module_on_chassis.
    erewrite kg_bind_run;
      [|apply (exec_match_create_rel_resolve g _ _ _ m _ _ _ ch); reflexivity].
    unfold kg_ret. cbn zeta.
    replace (eval_props _ _) with
      (list_to_map [ ("slot", VStr sl); ("position_x", VNum pos.1.1);
                     ("position_y", VNum pos.1.2); ("position_z", VNum pos.2) ]
         : gmap string (value num)); [done|].
    vm_compute. reflexivity.
  - unfold add_module_to_mission.
    erewrite kg_bind_run;
      [|apply (exec_match_create_rel_resolve g _ _ _ m _ _ _ mi); reflexivity].
    unfold kg_ret, eval_props. by rewrite omap_empty.
  - unfold add_constraint_to_module.
    erewrite kg_bind_run;
      [|apply (exec_match_create_rel_resolve g _ _ _ m _ _ _ co); reflexivity].
    unfold kg_ret, eval_props. by rewrite omap_empty.
  - unfold mark_compatible.
    erewrite kg_bind_run;
      [|apply (exec_match_create_rel_resolve g _ _ _ m1 _ _ _ m2); reflexivity].
    unfold kg_ret, eval_props. by rewrite omap_empty.
  - unfold mark_conflict.
    erewrite kg_bind_run;
      [|apply (exec_match_create_rel_resolve g _ _ _ m1 _ _ _ m2); reflexivity].
    unfold kg_ret. cbn zeta.
    replace (eval_props _ _) with
      (list_to_map [ ("reason", VStr r) ] : gmap string (value num)); [done|].
    vm_compute. reflexivity.
Qed.


(** ** Lists *)

Lemma bind_guard {A B} (p : A → bool) (f : A → list B) (l : list A) :
  l ≫= (λ x, if p x then f x else []) = List.filter p l ≫= f.
Proof.
  induction l as [|x l IH]; [done|].
  rewrite bind_cons, IH. simpl. by destruct (p x).
Qed.

(** ** The claims on node creation *)


(** C7, as the code has it.  Without a mechanical record [create_module]
    creates, after the module node, one Interface_Spec node per declared
    kind, electrical before thermal; the identifier of each is the module
    id followed by "_" and the kind, and each is the target of one
    HAS_INTERFACE edge from the module node.  With a mechanical record the
    call raises [CypherTypeError] when it comes to the first interface: the
    graph has gained the module node and nothing else, no interface node
    and no edge, also for an electrical or thermal record declared beside
    it. *)
Theorem create_module_interfaces g (module_id module_type : string) physical
    mechanical_iface electrical_iface thermal_iface (description : string) :
  (mechanical_iface = None →
   ∃ mnode ifaces,
     create_module module_id module_type physical
       mechanical_iface electrical_iface thermal_iface description g
     = (Returned (Some (node_id mnode)),
        mk_graph num (nodes g ++ mnode :: ifaces)
                 (edges g ++ (has_interface mnode <$> ifaces)))
     ∧ label mnode = "UGV_Module"
     ∧ props mnode !! "module_id" = Some (VStr module_id)
     ∧ Forall2 (interface_of module_id) ifaces
         (declared_kinds mechanical_iface electrical_iface thermal_iface)
     ∧ node_id <$> mnode :: ifaces = seq (fresh_id g) (S (length ifaces)))
  ∧ (mechanical_iface ≠ None →
     ∃ mnode,
       create_module module_id module_type physical
         mechanical_iface electrical_iface thermal_iface description g
       = (Raised CypherTypeError,
          mk_graph num (nodes g ++ [mnode]) (edges g))
       ∧ label mnode = "UGV_Module"
       ∧ props mnode !! "module_id" = Some (VStr module_id)).
Proof.
  split.
  - intros ->.
    destruct (create_module_run g module_id module_type physical
                electrical_iface thermal_iface description)
      as (mnode & ifaces & Erun & Hlbl & Hid & _ & _ & _ & Hifaces & Hids).
    by exists mnode, ifaces.
  - destruct mechanical_iface as [me|]; [intros _|done].
    destruct (create_module_mechanical g module_id module_type physical me
                electrical_iface thermal_iface description)
      as (mnode & Erun & _ & Hlbl & Hid).
    by exists mnode.
Qed.


(** ** The grammar check *)

(** What [accepted] accepts: every [WHERE] of the statement stands directly
    after a [MATCH], an [OPTIONAL MATCH] or a [WITH]. *)
Lemma where_ok_spec (before : option clause) (cs : list clause) :
  where_ok before cs = true →
  ∀ i, cs !! i = Some WHERE →
       ∃ c, (match i with 0 => before | S j => cs !! j end) = Some c
            ∧ takes_where c = true.
Proof.
  revert before. induction cs as [|c cs IH]; intros before Hok i Hi; [done|].
  destruct i as [|i].
  - simpl in Hi. injection Hi as ->. simpl in Hok.
    apply andb_true_iff in Hok as [Hb _].
    destruct before as [c|]; [|done]. by exists c.
  - simpl in Hi.
    assert (where_ok (Some c) cs = true) as Hrest.
    { destruct c; simpl in Hok; try done.
      by apply andb_true_iff in Hok as [_ ?]. }
    destruct (IH (Some c) Hrest i Hi) as (c' & Hc' & Htakes).
    exists c'. split; [|done]. by destruct i.
Qed.

Lemma accepted_where (query : list clause) (i : nat) :
  accepted query = true → query !! i = Some WHERE →
  ∃ j c, i = S j ∧ query !! j = Some c ∧ takes_where c = true.
Proof.
  intros [Hok _]%andb_true_iff Hi.
  destruct (where_ok_spec None query Hok i Hi) as (c & Hc & Htakes).
  destruct i as [|j]; [done|]. by exists j, c.
Qed.

(** The statements behind the methods that are given by their run. *)
Lemma statements_accepted :
  accepted create_node_statement = true
  ∧ accepted create_relationship_statement = true
  ∧ accepted power_statement = true
  ∧ accepted dependency_statement = true.
Proof. by split_and!. Qed.

(** The compatibility statement has its [WHERE] after an [UNWIND]. *)
Lemma compatibility_statement_refused :
  compatibility_statement !! 5 = Some WHERE
  ∧ compatibility_statement !! 4 = Some UNWIND
  ∧ accepted compatibility_statement = false.
Proof. by split_and!. Qed.

(** The manifest statement has a [collect] in the argument of a
    [collect]. *)
Lemma manifest_statement_refused :
  manifest_statement !! 3
  = Some (RETURN [Plain; Plain; Plain;
                  Aggregate (MapOf [Plain; Plain; Plain; Plain;
                                    Aggregate Plain])])
  ∧ has_aggregate (MapOf [Plain; Plain; Plain; Plain; Aggregate Plain]) = true
  ∧ accepted manifest_statement = false.
Proof. by split_and!. Qed.

Lemma execute_refused {R} (query : list clause) (rows : list R) :
  accepted query = false → _execute_query query rows = Raised CypherSyntaxError.
Proof. unfold _execute_query. by intros ->. Qed.

Lemma get_mission_compatibility_refused
    (compat_rows : graph num → string → list (compat_record num))
    g (mission_id : string) :
  get_mission_compatibility compat_rows g mission_id = Raised CypherSyntaxError.
Proof.
  unfold get_mission_compatibility.
  rewrite execute_refused by apply compatibility_statement_refused. done.
Qed.

Lemma get_mission_manifest_refused
    (manifest_rows : graph num → string → list (manifest_row num))
    g (mission_id : string) :
  get_mission_manifest manifest_rows g mission_id = Raised CypherSyntaxError.
Proof.
  unfold get_mission_manifest.
  rewrite execute_refused by apply manifest_statement_refused. done.
Qed.

(** ** The claims on the two refused reads *)

(** C3, as the code has it.  [get_mission_compatibility] returns no pair
    record for any mission: its statement puts [WHERE id(m1) < id(m2)]
    directly after [UNWIND], the engine refuses it, and the call raises
    [CypherSyntaxError] whatever the graph and the mission id. *)
Theorem get_mission_compatibility_raises
    (compat_rows : graph num → string → list (compat_record num))
    g (mission_id : string) :
  get_mission_compatibility compat_rows g mission_id = Raised CypherSyntaxError
  ∧ ∀ report,
      get_mission_compatibility compat_rows g mission_id ≠ Returned report.
Proof.
  rewrite get_mission_compatibility_refused. by split.
Qed.

(** C5, as the code has it.  For a pair of modules of a mission that is
    joined, from the lower internal identifier to the higher, by a
    CONFLICTS_WITH and a COMPATIBLE_WITH edge, the pair is not reported at
    all: the call raises [CypherSyntaxError]. *)
Theorem conflicting_pair_raises
    (compat_rows : graph num → string → list (compat_record num))
    g (mission_id : string) a b e_conf e_compat :
  linked g mission_id a → linked g mission_id b →
  node_id a < node_id b →
  e_conf ∈ rels_between g "CONFLICTS_WITH" a b →
  e_compat ∈ rels_between g "COMPATIBLE_WITH" a b →
  get_mission_compatibility compat_rows g mission_id = Raised CypherSyntaxError.
Proof. intros _ _ _ _ _. apply get_mission_compatibility_refused. Qed.

(** C2, as the code has it.  [get_mission_manifest] returns neither a
    manifest nor the not_found status: its statement has
    [collect(DISTINCT c.constraint_id)] inside the argument of [collect],
    the engine refuses it, and the call raises [CypherSyntaxError] for an
    existing mission without modules and for an unknown mission id alike. *)
Theorem get_mission_manifest_raises
    (manifest_rows : graph num → string → list (manifest_row num))
    g (mission_id mission_id' : string) :
  resolve g "Mission_Profile" "mission_id" mission_id ≠ [] →
  (∀ m, ¬ linked g mission_id m) →
  resolve g "Mission_Profile" "mission_id" mission_id' = [] →
  get_mission_manifest manifest_rows g mission_id = Raised CypherSyntaxError
  ∧ get_mission_manifest manifest_rows g mission_id' = Raised CypherSyntaxError.
Proof. intros _ _ _. by rewrite !get_mission_manifest_refused. Qed.

End Facts.

(** * Further properties *)

Section Relationships.
Context {num : Type} `{!Number num}.

Implicit Types (g : graph num) (n a b m : node num) (e : edge num).

(** ** Relationship operations, in general *)

(** X5: each relationship operation adds one edge per pair of a node the first
    business id resolves to and a node the second resolves to, and nothing
    else; it returns True exactly when both ids resolve. *)
Theorem rel_call_adds_product (c : rel_call) g :
  ∃ created,
    run_rel_call c g
    = (bool_decide (rel_call_sources g c ≠ [] ∧ rel_call_targets g c ≠ []),
       add_edges g created)
    ∧ length created
      = length (rel_call_sources g c) * length (rel_call_targets g c)
    ∧ ∀ e, e ∈ created ↔ ∃ a b, a ∈ rel_call_sources g c
                                ∧ b ∈ rel_call_targets g c
                                ∧ e = rel_call_edge c a b.
Proof.
  rewrite rel_call_run. cbn zeta.
  set (created := a ← rel_call_sources g c; b ← rel_call_targets g c;
                  [rel_call_edge c a b]).
  assert (length created
          = length (rel_call_sources g c) * length (rel_call_targets g c))
    as Hlen.
  { subst created. generalize (rel_call_targets g c) as tb. intros tb.
    induction (rel_call_sources g c) as [|a sa IH]; [done|].
    rewrite bind_cons, length_app, IH. simpl. f_equal.
    clear IH. induction tb as [|b tb IHb]; [done|].
    by rewrite bind_cons, length_app, IHb. }
  exists created. split_and!; [|done|].
  - unfold add_edges. f_equal. rewrite Hlen.
    destruct (rel_call_sources g c) as [|a sa].
    { rewrite bool_decide_eq_false_2; [done | by intros [? _]]. }
    destruct (rel_call_targets g c) as [|b tb].
    { rewrite Nat.mul_0_r. rewrite bool_decide_eq_false_2; [done | by intros [_ ?]]. }
    by rewrite bool_decide_eq_true_2.
  - intros e. subst created. rewrite list_elem_of_bind. split.
    + intros (a & He & Ha). apply list_elem_of_bind in He as (b & He & Hb).
      apply list_elem_of_singleton in He. eauto.
    + intros (a & b & Ha & Hb & ->). exists a. split; [|done].
      apply list_elem_of_bind. exists b. split; [apply list_elem_of_here|done].
Qed.

(** X6: the relationship operations are not idempotent: the same call made
    twice leaves two equal edges between the two nodes, and returns True both
    times. *)
Theorem rel_call_twice (c : rel_call) g a b :
  rel_call_sources g c = [a] →
  rel_call_targets g c = [b] →
  (let* _ := run_rel_call c in run_rel_call c) g
  = (true, add_edges g [rel_call_edge c a b; rel_call_edge c a b]).
Proof.
  intros Ha Hb. unfold kg_bind. rewrite rel_call_run, Ha, Hb. cbn zeta.
  rewrite !bind_singleton.
  change (mk_graph num (nodes g) (edges g ++ [rel_call_edge c a b]))
    with (add_edges g [rel_call_edge c a b]).
  rewrite rel_call_run.
  assert (rel_call_sources (add_edges g [rel_call_edge c a b]) c = [a]) as ->
    by (rewrite <- Ha; by destruct c).
  assert (rel_call_targets (add_edges g [rel_call_edge c a b]) c = [b]) as ->
    by (rewrite <- Hb; by destruct c).
  cbn zeta. rewrite !bind_singleton. unfold add_edges. cbn [nodes edges].
  by rewrite <- app_assoc.
Qed.

End Relationships.

Section Creation.
Context {num : Type} `{!Number num}.

Implicit Types (g : graph num) (n a b m : node num) (e : edge num).

(** ** Creation and resolution *)

Lemma has_business_id_intro (lbl key id : string) n :
  label n = lbl → props n !! key = Some (VStr id) →
  has_business_id lbl key id n = true.
Proof.
  intros Hl Hp. unfold has_business_id. rewrite Hp.
  by rewrite !bool_decide_eq_true_2.
Qed.

Lemma resolve_snoc (ns rest : list (node num)) es es' (lbl key id : string) n :
  has_business_id lbl key id n = true →
  Forall (λ i, has_business_id lbl key id i = false) rest →
  resolve (mk_graph num (ns ++ n :: rest) es') lbl key id
  = resolve (mk_graph num ns es) lbl key id ++ [n].
Proof.
  intros Hn Hrest. unfold resolve. cbn [nodes].
  rewrite List.filter_app. f_equal. simpl. rewrite Hn. f_equal.
  induction Hrest as [|i rest Hi _ IH]; [done|]. simpl. by rewrite Hi.
Qed.


(** ** Flattening of interface records *)

(** X8: called without a mechanical record, create_interface_spec creates a
    node that stores interface_id, interface_type, created_timestamp and each
    field of the electrical and thermal record under its prefix (elec_,
    therm_); these keys are distinct, and nothing else is stored. *)
Theorem create_interface_spec_flattens g (interface_id interface_type : string)
    electrical thermal :
  ∃ n, create_interface_spec interface_id interface_type
         None electrical thermal g
       = (Returned (Some (node_id n)),
          mk_graph num (nodes g ++ [n]) (edges g))
     ∧ Forall (λ kv, props n !! kv.1 = Some kv.2)
         (flattened_fields interface_id interface_type
            None electrical thermal)
     ∧ NoDup (flattened_fields interface_id interface_type
                None electrical thermal).*1
     ∧ size (props n)
       = length (flattened_fields interface_id interface_type
                   None electrical thermal).
Proof.
  unfold create_interface_spec.
  erewrite kg_try_run;
    [|apply create_node_run; destruct electrical, thermal;
      vm_compute; reflexivity].
  unfold kg_ret.
  eexists (mk_node num _ _ _). split; [reflexivity|]. cbn [props].
  destruct electrical, thermal; split_and!.
  all: try (vm_compute; reflexivity).
  all: try (apply (bool_decide_unpack _); vm_compute; reflexivity).
  all: match goal with
       | |- Forall _ _ =>
           match goal with
           | |- context [eval_props ?p ?q] => set (stored := eval_props p q)
           end
       end.
  all: unfold flattened_fields, prefixed, asdict_mechanical, asdict_electrical,
         asdict_thermal; cbn [app fmap list_fmap fst snd String.append].
  all: repeat (apply Forall_cons_2 || apply Forall_nil_2).
  all: subst stored; vm_compute; reflexivity.
Qed.

(** ** [_create_relationship] *)

Lemma match_nodes_null_id g (params : gmap string (value num)) (lbl p : string) :
  params !! p = Some VNull →
  match_nodes g params {| pat_label := lbl; pat_cond := IdIs p |} = [].
Proof.
  intros Hp. unfold match_nodes.
  rewrite (List.filter_ext _ (λ _, false)).
  - by induction (nodes g).
  - intros n. unfold cond_holds, eval_param. cbn [pat_cond]. rewrite Hp.
    simpl. apply andb_false_r.
Qed.

Lemma bind_nil_inner {A B C} (l : list A) (f : A → B → list C) :
  (a ← l; b ← @nil B; f a b) = [].
Proof. by induction l. Qed.

(** X9: _create_relationship with None for either node identifier returns
    False and leaves the graph as it is. *)
Theorem create_relationship_without_id g (from_label rel_type to_label : string)
    (from_id to_id : option nat) :
  from_id = None ∨ to_id = None →
  _create_relationship from_label from_id rel_type to_label to_id None g
  = (false, g).
Proof.
  intros Hnone. unfold _create_relationship, kg_bind, exec_match_create_rel, kg_ret.
  cbn [from_option default].
  assert (∀ es : list (edge num), es = [] →
            ((0 <? length es), mk_graph num (nodes g) (edges g ++ es))
            = (false, g)) as Hnil.
  { intros es ->. simpl. rewrite app_nil_r. by destruct g. }
  apply Hnil. destruct Hnone as [-> | ->].
  - by rewrite (match_nodes_null_id g _ from_label "from_id") by reflexivity.
  - rewrite (match_nodes_null_id g _ to_label "to_id") by reflexivity.
    apply bind_nil_inner.
Qed.


Lemma optional_not_nil {A} (l : list A) : optional l ≠ [].
Proof. by destruct l. Qed.

Lemma bind_not_nil {A B} (l : list A) (f : A → list B) :
  l ≠ [] → (∀ x, f x ≠ []) → l ≫= f ≠ [].
Proof.
  destruct l as [|x l]; [done|]. intros _ Hf. rewrite bind_cons.
  specialize (Hf x). by destruct (f x).
Qed.

End Creation.

Section PowerReport.
Context {num : Type} `{!Number num}.

Implicit Types (g : graph num) (n a b m : node num) (e : edge num).

(** ** Membership counted per edge *)


Lemma keys_equiv_singleton (v : value num) :
  keys_equiv [v] [v] = cypher_equiv v v.
Proof. simpl. apply andb_true_r. Qed.

Lemma group_by_single {A} (key : A → list (value num)) (k : list (value num))
    (rows : list A) :
  keys_equiv k k = true →
  Forall (λ r, key r = k) rows →
  rows ≠ [] →
  group_by key rows = [(k, rows)].
Proof.
  intros Hk. induction rows as [|r rows IH] using rev_ind; [done|].
  intros [Hrows Hr]%Forall_app _. apply Forall_cons_1 in Hr as [Hr _].
  rewrite group_by_snoc, Hr.
  destruct rows as [|r0 rows0]; [done|].
  rewrite IH by done. simpl. by rewrite Hk.
Qed.

Lemma mission_modules_single g (mission_id : string) (mi : node num) :
  resolve g "Mission_Profile" "mission_id" mission_id = [mi] →
  match_part_of_mission g mission_id
  = (λ m, (m, mi)) <$> match_sources g "UGV_Module" "PART_OF_MISSION" mi.
Proof.
  intros Hmi. rewrite match_part_of_mission_resolve, Hmi, bind_singleton.
  induction (match_sources g "UGV_Module" "PART_OF_MISSION" mi) as [|m ms IH];
    [done|]. rewrite bind_cons, fmap_cons. by f_equal.
Qed.

Lemma validate_one_mission g (mission_id : string) (budget : num)
    (mi : node num) :
  resolve g "Mission_Profile" "mission_id" mission_id = [mi] →
  cypher_equiv (prop mi "mission_name") (prop mi "mission_name") = true →
  mission_modules g mission_id ≠ [] →
  validate_mission_power_budget g mission_id budget
  = BudgetReport (budget_report_of (prop mi "mission_name")
                    (mission_modules g mission_id) budget).
Proof.
  intros Hmi Hname Hrows. unfold validate_mission_power_budget, power_query.
  unfold mission_modules in *.
  rewrite (mission_modules_single g mission_id mi Hmi) in *.
  set (ms := match_sources g "UGV_Module" "PART_OF_MISSION" mi) in *.
  assert (((λ m, (m, mi)) <$> ms).*1 = ms) as Hfst
    by (clear; induction ms; simpl; by f_equal).
  rewrite Hfst in *.
  rewrite (group_by_single _ [prop mi "mission_name"]).
  - cbn [fmap list_fmap head fst snd default from_option id].
    unfold budget_report_of, or_zero. rewrite <- !list_fmap_compose.
    rewrite length_fmap. reflexivity.
  - by rewrite keys_equiv_singleton.
  - apply Forall_fmap, Forall_forall. by intros m _.
  - by intros Hnil%fmap_nil_inv.
Qed.

Lemma length_match_sources_add g (lbl ty : string) (t m : node num) :
  NoDup (node_id <$> nodes g) →
  m ∈ nodes g → label m = lbl →
  length (match_sources (add_edges g [mk_edge num ty (node_id m) (node_id t) ∅])
            lbl ty t)
  = S (length (match_sources g lbl ty t)).
Proof.
  unfold match_sources. cbn [nodes add_edges].
  set (e := mk_edge num ty (node_id m) (node_id t) ∅).
  assert (∀ n, rels_between (add_edges g [e]) ty n t
               = rels_between g ty n t
                 ++ (if bool_decide (node_id m = node_id n) then [e] else []))
    as Hrels.
  { intros n. unfold rels_between, add_edges. cbn [edges].
    rewrite List.filter_app. f_equal. simpl.
    rewrite (bool_decide_eq_true_2 (ty = ty)),
      (bool_decide_eq_true_2 (node_id t = node_id t)) by done.
    by rewrite andb_true_l, andb_true_r. }
  fold (add_edges g [e]).
  induction (nodes g) as [|n ns IH]; intros Hnodup Hin Hlbl.
  { by apply not_elem_of_nil in Hin. }
  rewrite fmap_cons in Hnodup. apply NoDup_cons in Hnodup as [Hn Hns].
  simpl. destruct (bool_decide (label n = lbl)) eqn:Hln.
  - rewrite !bind_cons, !length_app, Hrels.
    apply elem_of_cons in Hin as [<- | Hin].
    + rewrite bool_decide_eq_true_2 by done.
      rewrite bind_app, length_app. simpl.
      assert (∀ ns', (∀ n', n' ∈ ns' → node_id n' ≠ node_id m) →
                (List.filter (λ n0, bool_decide (label n0 = lbl)) ns'
                 ≫= λ m0, rels_between (add_edges g [e]) ty m0 t ≫= λ _, [m0])
                = (List.filter (λ n0, bool_decide (label n0 = lbl)) ns'
                   ≫= λ m0, rels_between g ty m0 t ≫= λ _, [m0])) as Hrest.
      { intros ns' Hns'. apply Forall_bind_ext, Forall_forall.
        intros n' [Hn' _]%elem_of_filter_bool. rewrite Hrels.
        rewrite bool_decide_eq_false_2; [by rewrite app_nil_r|].
        intros Heq. by apply (Hns' n' Hn'). }
      rewrite Hrest; [lia|]. intros n' Hn' Heq. apply Hn.
      rewrite <- Heq. by apply list_elem_of_fmap_2.
    + rewrite bool_decide_eq_false_2.
      2:{ intros Heq. apply Hn. rewrite <- Heq. by apply list_elem_of_fmap_2. }
      rewrite app_nil_r, IH by done. lia.
  - apply elem_of_cons in Hin as [<- | Hin].
    + by rewrite bool_decide_eq_true_2 in Hln.
    + by apply IH.
Qed.

(** X13: add_module_to_mission does not look for an existing membership: every
    successful call raises the num_modules that validate_mission_power_budget
    reports by one, also for a module that is in the mission already. *)
Theorem add_module_to_mission_counts_again g (module_id mission_id : string)
    (budget : num) (m mi : node num) :
  NoDup (node_id <$> nodes g) →
  resolve g "UGV_Module" "module_id" module_id = [m] →
  resolve g "Mission_Profile" "mission_id" mission_id = [mi] →
  cypher_equiv (prop mi "mission_name") (prop mi "mission_name") = true →
  (add_module_to_mission module_id mission_id g).1 = true
  ∧ reported_modules
      (validate_mission_power_budget
         (add_module_to_mission module_id mission_id g).2 mission_id budget)
    = S (reported_modules (validate_mission_power_budget g mission_id budget)).
Proof.
  intros Hnodup Hm Hmi Hname.
  pose proof (rel_call_run (AddModuleToMission module_id mission_id) g) as Hrun.
  cbn [run_rel_call rel_call_sources rel_call_targets rel_call_edge] in Hrun.
  rewrite Hm, Hmi in Hrun. cbn zeta in Hrun. rewrite !bind_singleton in Hrun.
  rewrite Hrun. split; [done|]. cbn [snd].
  change (mk_graph num (nodes g) (edges g ++ [?e])) with (add_edges g [e]).
  assert (m ∈ nodes g ∧ label m = "UGV_Module") as [Hin Hlbl].
  { assert (m ∈ resolve g "UGV_Module" "module_id" module_id) as Hr
      by (rewrite Hm; apply list_elem_of_here).
    apply elem_of_filter_bool in Hr as [? Hb]. split; [done|].
    unfold has_business_id in Hb. apply andb_true_iff in Hb as [Hb _].
    by apply bool_decide_eq_true in Hb. }
  set (g' := add_edges g _).
  assert (resolve g' "Mission_Profile" "mission_id" mission_id = [mi]) as Hmi'
    by done.
  assert (length (mission_modules g' mission_id)
          = S (length (mission_modules g mission_id))) as Hlen.
  { unfold mission_modules.
    rewrite (mission_modules_single g' mission_id mi Hmi'),
      (mission_modules_single g mission_id mi Hmi).
    rewrite !length_fmap.
    by apply length_match_sources_add. }
  rewrite (validate_one_mission g' mission_id budget mi Hmi' Hname).
  2:{ intros Hnil. by rewrite Hnil in Hlen. }
  cbn [reported_modules budget_report_of num_modules]. rewrite Hlen. f_equal.
  destruct (mission_modules g mission_id) as [|m0 ms] eqn:Hms.
  - unfold validate_mission_power_budget, power_query.
    unfold mission_modules in Hms. apply fmap_nil_inv in Hms. by rewrite Hms.
  - rewrite (validate_one_mission g mission_id budget mi Hmi Hname).
    + by rewrite Hms.
    + by rewrite Hms.
Qed.

End PowerReport.

Section DependencyLookup.
Context {num : Type} `{!Number num}.

Implicit Types (g : graph num).

(** ** The dependency lookup *)

Lemma dependency_bindings_resolve g (module_id : string) :
  dependency_bindings g module_id
  = m ← resolve g "UGV_Module" "module_id" module_id;
    chassis ← optional (match_targets g "MOUNTED_ON" "Base_Chassis" m);
    mission ← optional (match_targets g "PART_OF_MISSION" "Mission_Profile" m);
    iface ← optional (match_targets g "HAS_INTERFACE" "Interface_Spec" m);
    m2 ← optional (match_targets g "CONFLICTS_WITH" "UGV_Module" m);
    m3 ← optional (match_targets g "COMPATIBLE_WITH" "UGV_Module" m);
    [ {| dep_m := m; dep_chassis := chassis; dep_mission := mission;
         dep_iface := iface; dep_m2 := m2; dep_m3 := m3 |} ].
Proof.
  unfold dependency_bindings.
  by rewrite (match_nodes_resolve _ _ _ _ _ module_id).
Qed.

Lemma elem_of_dependency_bindings g (module_id : string) r :
  r ∈ dependency_bindings g module_id
  ↔ dep_m r ∈ resolve g "UGV_Module" "module_id" module_id
    ∧ dep_chassis r ∈ optional (match_targets g "MOUNTED_ON" "Base_Chassis" (dep_m r))
    ∧ dep_mission r ∈ optional (match_targets g "PART_OF_MISSION" "Mission_Profile" (dep_m r))
    ∧ dep_iface r ∈ optional (match_targets g "HAS_INTERFACE" "Interface_Spec" (dep_m r))
    ∧ dep_m2 r ∈ optional (match_targets g "CONFLICTS_WITH" "UGV_Module" (dep_m r))
    ∧ dep_m3 r ∈ optional (match_targets g "COMPATIBLE_WITH" "UGV_Module" (dep_m r)).
Proof.
  rewrite dependency_bindings_resolve. split.
  - intros Hr.
    apply list_elem_of_bind in Hr as (m & Hr & Hm).
    apply list_elem_of_bind in Hr as (ch & Hr & Hch).
    apply list_elem_of_bind in Hr as (mi & Hr & Hmi).
    apply list_elem_of_bind in Hr as (i & Hr & Hi).
    apply list_elem_of_bind in Hr as (m2 & Hr & Hm2).
    apply list_elem_of_bind in Hr as (m3 & Hr & Hm3).
    apply list_elem_of_singleton in Hr as ->. done.
  - destruct r as [m ch mi i m2 m3]. simpl. intros (Hm & Hch & Hmi & Hi & Hm2 & Hm3).
    apply list_elem_of_bind. exists m. split; [|done].
    apply list_elem_of_bind. exists ch. split; [|done].
    apply list_elem_of_bind. exists mi. split; [|done].
    apply list_elem_of_bind. exists i. split; [|done].
    apply list_elem_of_bind. exists m2. split; [|done].
    apply list_elem_of_bind. exists m3. split; [|done].
    apply list_elem_of_here.
Qed.

Lemma dependency_bindings_nil g (module_id : string) :
  dependency_bindings g module_id = []
  ↔ resolve g "UGV_Module" "module_id" module_id = [].
Proof.
  rewrite dependency_bindings_resolve. split.
  - intros Hnil. destruct (resolve g _ _ _) as [|m ms] eqn:Hres; [done|].
    exfalso. revert Hnil. apply bind_not_nil; [done|]. intros m'.
    repeat (apply bind_not_nil; [apply optional_not_nil|]; intros ?). done.
  - by intros ->.
Qed.

(** The groups of [group_by] partition the rows: a member of a group is a
    row, with the group's key up to equivalence, and the first group carries
    the key of the first row. *)
Lemma group_insert_elem {A} (k : list (value num)) (r : A) gs k' rs x :
  (k', rs) ∈ group_insert k r gs → x ∈ rs →
  x = r ∨ ∃ rs0, (k', rs0) ∈ gs ∧ x ∈ rs0.
Proof.
  induction gs as [|[k0 rs0] gs IH]; simpl.
  - intros Hin%list_elem_of_singleton Hx. injection Hin as -> ->.
    apply list_elem_of_singleton in Hx. by left.
  - destruct (keys_equiv k0 k).
    + intros [Heq | Hin]%elem_of_cons Hx.
      * injection Heq as -> ->. apply elem_of_app in Hx as [Hx | Hx].
        -- right. exists rs0. split; [apply list_elem_of_here | done].
        -- apply list_elem_of_singleton in Hx. by left.
      * right. exists rs. split; [by apply list_elem_of_further | done].
    + intros [Heq | Hin]%elem_of_cons Hx.
      * injection Heq as -> ->. right. exists rs0.
        split; [apply list_elem_of_here | done].
      * destruct (IH Hin Hx) as [-> | (rs1 & Hin1 & Hx1)]; [by left|].
        right. exists rs1. split; [by apply list_elem_of_further | done].
Qed.

Lemma group_by_elem {A} (key : A → list (value num)) (rows : list A) k rs x :
  (k, rs) ∈ group_by key rows → x ∈ rs → x ∈ rows.
Proof.
  revert k rs x. induction rows as [|r rows IH] using rev_ind; intros k rs x.
  - by intros ?%not_elem_of_nil.
  - rewrite group_by_snoc. intros Hin Hx.
    destruct (group_insert_elem _ _ _ _ _ _ Hin Hx) as [-> | (rs0 & Hin0 & Hx0)].
    + apply elem_of_app. right. apply list_elem_of_here.
    + apply elem_of_app. left. by eapply IH.
Qed.

Lemma group_insert_head {A} (k : list (value num)) (r : A) k0 rs0 gs :
  ∃ rs gs', group_insert k r ((k0, rs0) :: gs) = (k0, rs) :: gs'.
Proof. simpl. destruct (keys_equiv k0 k); eauto. Qed.

Lemma group_by_head {A} (key : A → list (value num)) (r0 : A) (rows : list A) :
  ∃ rs gs', group_by key (r0 :: rows) = (key r0, rs) :: gs'.
Proof.
  induction rows as [|r rows IH] using rev_ind; [by eexists _, _|].
  destruct IH as (rs & gs' & IH).
  change (r0 :: rows ++ [r]) with ((r0 :: rows) ++ [r]).
  rewrite group_by_snoc, IH. apply group_insert_head.
Qed.

Lemma elem_of_collect_distinct (vs : list (value num)) v :
  v ∈ collect_distinct vs → v ∈ vs ∧ v ≠ VNull.
Proof.
  unfold collect_distinct, distinct, collect.
  assert (∀ acc, v ∈ foldl (λ acc v, if existsb (cypher_equiv v) acc then acc
                                     else acc ++ [v]) acc
                       (List.filter (λ v, negb (is_null v)) vs) →
                 v ∈ acc ∨ (v ∈ vs ∧ v ≠ VNull)) as Hgen.
  { induction vs as [|w vs IH]; intros acc; simpl; [by left|].
    destruct (is_null w) eqn:Hw; simpl.
    - intros [?|[? ?]]%IH; [by left|]. right. split; [by right|done].
    - intros [Hacc|[? ?]]%IH.
      + destruct (existsb _ _); [by left|].
        apply elem_of_app in Hacc as [?|Hv]; [by left|].
        apply list_elem_of_singleton in Hv as ->.
        right. split; [by left|]. by intros ->.
      + right. split; [by right|done]. }
  intros [[]%not_elem_of_nil|?]%Hgen. done.
Qed.

(** X14: find_module_dependencies returns the not_found status exactly when
    the module id resolves to no UGV_Module node. *)
Theorem find_module_dependencies_not_found_iff g (module_id : string) :
  find_module_dependencies g module_id
  = Dependencies.Status {| status := "not_found"; reason := None |}
  ↔ resolve g "UGV_Module" "module_id" module_id = [].
Proof.
  unfold find_module_dependencies, dependency_query. split.
  - intros Hnf. apply dependency_bindings_nil.
    destruct (dependency_bindings g module_id) as [|r rows]; [done|].
    destruct (group_by_head dependency_key r rows) as (rs & gs' & Hg).
    by rewrite Hg in Hnf.
  - intros Hnil%dependency_bindings_nil. by rewrite Hnil.
Qed.

(** The first row of the dependency statement. *)
Lemma dependency_first_row g (module_id : string) m ms :
  resolve g "UGV_Module" "module_id" module_id = m :: ms →
  ∃ r rows, dependency_bindings g module_id = r :: rows
            ∧ dep_m r = m
            ∧ head (optional (match_targets g "MOUNTED_ON" "Base_Chassis" m))
              = Some (dep_chassis r).
Proof.
  intros Hres. rewrite dependency_bindings_resolve, Hres, bind_cons.
  destruct (optional (match_targets g "MOUNTED_ON" "Base_Chassis" m))
    as [|ch chs] eqn:H1; [by apply optional_not_nil in H1|].
  destruct (optional (match_targets g "PART_OF_MISSION" "Mission_Profile" m))
    as [|mi mis] eqn:H2; [by apply optional_not_nil in H2|].
  destruct (optional (match_targets g "HAS_INTERFACE" "Interface_Spec" m))
    as [|i ifs] eqn:H3; [by apply optional_not_nil in H3|].
  destruct (optional (match_targets g "CONFLICTS_WITH" "UGV_Module" m))
    as [|m2 m2s] eqn:H4; [by apply optional_not_nil in H4|].
  destruct (optional (match_targets g "COMPATIBLE_WITH" "UGV_Module" m))
    as [|m3 m3s] eqn:H5; [by apply optional_not_nil in H5|].
  rewrite !bind_cons. simpl. eauto.
Qed.

Lemma resolve_business_id g (lbl key id : string) (n : node num) :
  n ∈ resolve g lbl key id →
  n ∈ nodes g ∧ label n = lbl ∧ prop n key = VStr id.
Proof.
  intros [Hin Hb]%elem_of_filter_bool. unfold has_business_id in Hb.
  apply andb_true_iff in Hb as [Hl%bool_decide_eq_true Hb].
  split_and!; [done..|]. unfold prop.
  destruct (props n !! key) as [[]|]; try done.
  by apply bool_decide_eq_true in Hb as ->.
Qed.

Lemma find_module_dependencies_head g (module_id : string) m ms :
  resolve g "UGV_Module" "module_id" module_id = m :: ms →
  ∃ r, find_module_dependencies g module_id = Dependencies.Report r
       ∧ Dependencies.module_id r = VStr module_id
       ∧ Dependencies.module_type r = prop m "module_type"
       ∧ Dependencies.power_w r = prop m "power_draw_w"
       ∧ Dependencies.mounted_on r
         = prop_opt (mjoin (head (optional
                      (match_targets g "MOUNTED_ON" "Base_Chassis" m))))
                    "chassis_id".
Proof.
  intros Hres. unfold find_module_dependencies, dependency_query.
  destruct (dependency_first_row g module_id m ms Hres)
    as (r & rows & Hrows & Hm & Hch).
  rewrite Hrows.
  destruct (group_by_head dependency_key r rows) as (rs & gs' & ->).
  eexists. split; [reflexivity|]. cbn. rewrite Hm, Hch. split_and!; [|done..].
  assert (m ∈ resolve g "UGV_Module" "module_id" module_id) as Hin
    by (rewrite Hres; apply list_elem_of_here).
  by apply resolve_business_id in Hin as (_ & _ & ->).
Qed.


(** ** Only outgoing relations are listed *)

Lemma elem_of_match_targets g (ty lbl : string) (m c : node num) :
  c ∈ match_targets g ty lbl m
  ↔ c ∈ nodes g ∧ label c = lbl ∧
    ∃ e, e ∈ edges g ∧ rel_type e = ty ∧ src e = node_id m ∧ dst e = node_id c.
Proof.
  unfold match_targets. rewrite list_elem_of_bind. split.
  - intros (c' & Hin & Hc'). apply list_elem_of_bind in Hin as (e & Hin & He).
    apply list_elem_of_singleton in Hin as ->.
    apply elem_of_filter_bool in Hc' as [? ?%bool_decide_eq_true].
    apply elem_of_rels_between in He. eauto.
  - intros (Hc & Hl & e & He). exists c. split.
    + apply list_elem_of_bind. exists e. split; [apply list_elem_of_here|].
      by apply elem_of_rels_between.
    + apply elem_of_filter_bool. by rewrite bool_decide_eq_true.
Qed.

Lemma optional_Some {A} (l : list A) (x : A) : Some x ∈ optional l → x ∈ l.
Proof.
  destruct l as [|y l]; unfold optional.
  - by intros ?%list_elem_of_singleton.
  - intros (z & [= ->] & Hz)%list_elem_of_fmap. done.
Qed.

(** X16: the conflicts and compatible_with lists of a dependency report hold
    only ids of modules that the looked-up module points to: an edge that
    points at it from another module is not listed. *)
Theorem find_module_dependencies_outgoing g (module_id : string) r :
  find_module_dependencies g module_id = Dependencies.Report r →
  (∀ v, v ∈ Dependencies.conflicts r →
        ∃ m, m ∈ resolve g "UGV_Module" "module_id" module_id
             ∧ points_to g "CONFLICTS_WITH" m v)
  ∧ (∀ v, v ∈ Dependencies.compatible_with r →
          ∃ m, m ∈ resolve g "UGV_Module" "module_id" module_id
               ∧ points_to g "COMPATIBLE_WITH" m v).
Proof.
  unfold find_module_dependencies, dependency_query.
  destruct (group_by dependency_key (dependency_bindings g module_id))
    as [|[k rs] gs] eqn:Hg; [done|].
  rewrite fmap_cons. intros [= <-]. cbn.
  assert (∀ row, row ∈ rs → row ∈ dependency_bindings g module_id) as Hrows.
  { intros row Hrow. eapply (group_by_elem dependency_key _ k rs); [|done].
    rewrite Hg. apply list_elem_of_here. }
  split; intros v [Hv Hnn]%elem_of_collect_distinct;
    apply list_elem_of_fmap in Hv as (row & -> & Hrow);
    apply Hrows, elem_of_dependency_bindings in Hrow
      as (Hm & _ & _ & _ & Hm2 & Hm3);
    exists (dep_m row); (split; [done|]).
  - destruct (dep_m2 row) as [m2|]; [|done].
    apply optional_Some, elem_of_match_targets in Hm2 as (? & ? & e & ? & ? & ? & ?).
    exists m2, e. by split_and!.
  - destruct (dep_m3 row) as [m3|]; [|done].
    apply optional_Some, elem_of_match_targets in Hm3 as (? & ? & e & ? & ? & ? & ?).
    exists m3, e. by split_and!.
Qed.

(** ** Mounting, then looking up *)

Lemma bind_nil_inv {A B} (l : list A) (f : A → list B) x :
  l ≫= f = [] → x ∈ l → f x = [].
Proof.
  induction l as [|y l IH]; [by intros _ ?%not_elem_of_nil|].
  rewrite bind_cons. intros [Hy Hl]%app_eq_nil [-> | Hx]%elem_of_cons; auto.
Qed.

Lemma bind_const_nil_inv {A B} (l : list A) (y : B) :
  l ≫= (λ _, [y]) = [] → l = [].
Proof. by destruct l. Qed.

Lemma filter_by_id_unique (ns : list (node num)) (p : node num → bool)
    (c : node num) :
  NoDup (node_id <$> ns) → c ∈ ns → p c = true →
  List.filter (λ n, bool_decide (node_id c = node_id n)) (List.filter p ns)
  = [c].
Proof.
  induction ns as [|n ns IH]; [by intros _ ?%not_elem_of_nil|].
  rewrite fmap_cons. intros [Hn Hns]%NoDup_cons Hin Hp.
  apply elem_of_cons in Hin as [<- | Hin].
  - simpl. rewrite Hp. simpl. rewrite bool_decide_eq_true_2 by done. f_equal.
    clear IH. induction ns as [|n ns IH]; [done|]. simpl.
    rewrite fmap_cons in Hn, Hns. apply not_elem_of_cons in Hn as [Hne Hn].
    apply NoDup_cons in Hns as [_ Hns].
    destruct (p n); simpl; [rewrite bool_decide_eq_false_2 by done|]; auto.
  - simpl. destruct (p n) eqn:Hpn; simpl; [|by apply IH].
    rewrite bool_decide_eq_false_2; [by apply IH|].
    intros Heq. apply Hn. rewrite <- Heq. by apply list_elem_of_fmap_2.
Qed.

Lemma match_targets_add_first g (ty lbl : string) (m c : node num) ps :
  NoDup (node_id <$> nodes g) →
  c ∈ nodes g → label c = lbl →
  match_targets g ty lbl m = [] →
  match_targets (add_edges g [mk_edge num ty (node_id m) (node_id c) ps]) ty lbl m
  = [c].
Proof.
  intros Hnodup Hin Hlbl Hnone. unfold match_targets in *. cbn [nodes add_edges].
  set (e := mk_edge num ty (node_id m) (node_id c) ps).
  fold (add_edges g [e]).
  transitivity (List.filter (λ n, bool_decide (label n = lbl)) (nodes g)
                ≫= λ n, if bool_decide (node_id c = node_id n) then [n] else []).
  - apply Forall_bind_ext, Forall_forall. intros n Hn.
    pose proof (bind_nil_inv _ _ n Hnone Hn) as Hold. cbv beta in Hold.
    apply bind_const_nil_inv in Hold as Hrels.
    unfold rels_between, add_edges in *. cbn [edges].
    rewrite List.filter_app, Hrels. simpl.
    rewrite (bool_decide_eq_true_2 (ty = ty)),
      (bool_decide_eq_true_2 (node_id m = node_id m)) by done.
    rewrite !andb_true_l. by case_bool_decide.
  - rewrite (bind_guard (λ n, bool_decide (node_id c = node_id n)) (λ n, [n])).
    rewrite (filter_by_id_unique (nodes g) _ c Hnodup Hin)
      by (by apply bool_decide_eq_true_2).
    done.
Qed.

(** X17: an unmounted module is reported with mounted_on null, and after
    mount_module_on_chassis with the id of the chassis. *)
Theorem mount_then_find g (module_id chassis_id slot_name : string)
    (position : num * num * num) (m c : node num) :
  NoDup (node_id <$> nodes g) →
  resolve g "UGV_Module" "module_id" module_id = [m] →
  resolve g "Base_Chassis" "chassis_id" chassis_id = [c] →
  match_targets g "MOUNTED_ON" "Base_Chassis" m = [] →
  (∃ r, find_module_dependencies g module_id = Dependencies.Report r
        ∧ Dependencies.mounted_on r = VNull)
  ∧ (∃ r, find_module_dependencies
            (mount_module_on_chassis module_id chassis_id slot_name position g).2
            module_id
          = Dependencies.Report r
        ∧ Dependencies.mounted_on r = VStr chassis_id).
Proof.
  intros Hnodup Hm Hc Hnone. split.
  - destruct (find_module_dependencies_head g module_id m [] Hm)
      as (r & Hr & _ & _ & _ & Hmount).
    exists r. split; [done|]. by rewrite Hmount, Hnone.
  - pose proof (rel_call_run
                  (MountModuleOnChassis module_id chassis_id slot_name position)
                  g) as Hrun.
    cbn [run_rel_call rel_call_sources rel_call_targets rel_call_edge] in Hrun.
    rewrite Hm, Hc in Hrun. cbn zeta in Hrun. rewrite !bind_singleton in Hrun.
    rewrite Hrun. cbn [snd].
    change (mk_graph num (nodes g) (edges g ++ [?e])) with (add_edges g [e]).
    set (g' := add_edges g _).
    assert (c ∈ resolve g "Base_Chassis" "chassis_id" chassis_id) as Hcin
      by (rewrite Hc; apply list_elem_of_here).
    apply resolve_business_id in Hcin as (Hcn & Hcl & Hcid).
    destruct (find_module_dependencies_head g' module_id m [] Hm)
      as (r & Hr & _ & _ & _ & Hmount).
    exists r. split; [done|]. rewrite Hmount. subst g'.
    rewrite (match_targets_add_first g _ _ m c _ Hnodup Hcn Hcl Hnone).
    done.
Qed.

(** ** Creating a module, then looking it up *)

Lemma edges_closed_src g e :
  edges_closed g → e ∈ edges g → src e < fresh_id g ∧ dst e < fresh_id g.
Proof.
  intros Hclosed He. unfold edges_closed in Hclosed.
  rewrite Forall_forall in Hclosed. destruct (Hclosed e He) as [Hs Hd].
  apply list_elem_of_fmap in Hs as (a & -> & Ha).
  apply list_elem_of_fmap in Hd as (b & -> & Hb).
  split; by apply fresh_id_lt.
Qed.

Lemma filter_nil_forall {A} (p : A → bool) (l : list A) :
  (∀ x, x ∈ l → p x = false) → List.filter p l = [].
Proof.
  induction l as [|x l IH]; [done|]. intros Hall. simpl.
  rewrite (Hall x) by apply list_elem_of_here.
  apply IH. intros y Hy. apply Hall. by apply list_elem_of_further.
Qed.

Lemma bind_nil_forall {A B} (l : list A) (f : A → list B) :
  (∀ x, x ∈ l → f x = []) → l ≫= f = [].
Proof.
  induction l as [|x l IH]; [done|]. intros Hall. rewrite bind_cons.
  rewrite (Hall x) by apply list_elem_of_here.
  apply IH. intros y Hy. apply Hall. by apply list_elem_of_further.
Qed.

(** The edges that leave a module node just created. *)
Lemma rels_between_new_module g (mnode : node num) (ifaces : list (node num))
    (ty : string) (c : node num) :
  edges_closed g → node_id mnode = fresh_id g →
  rels_between (mk_graph num (nodes g ++ mnode :: ifaces)
                  (edges g ++ (has_interface mnode <$> ifaces))) ty mnode c
  = List.filter (λ e, bool_decide (rel_type e = ty)
                      && bool_decide (dst e = node_id c))
                (has_interface mnode <$> ifaces).
Proof.
  intros Hclosed Hid. unfold rels_between. cbn [edges].
  rewrite List.filter_app, filter_nil_forall.
  - simpl. apply List.filter_ext_in. intros e He.
    apply list_elem_of_In, list_elem_of_fmap in He as (x & -> & _). simpl.
    by rewrite (bool_decide_eq_true_2 (node_id mnode = node_id mnode)),
      andb_true_r.
  - intros e He. destruct (edges_closed_src g e Hclosed He) as [Hs _].
    rewrite (bool_decide_eq_false_2 (src e = node_id mnode)) by lia.
    by rewrite andb_false_r.
Qed.

Lemma match_targets_new_module_other g (mnode : node num)
    (ifaces : list (node num)) (ty lbl : string) :
  edges_closed g → node_id mnode = fresh_id g → ty ≠ "HAS_INTERFACE" →
  match_targets (mk_graph num (nodes g ++ mnode :: ifaces)
                   (edges g ++ (has_interface mnode <$> ifaces))) ty lbl mnode
  = [].
Proof.
  intros Hclosed Hid Hty. unfold match_targets.
  apply bind_nil_forall. intros c _.
  rewrite (rels_between_new_module g mnode ifaces ty c Hclosed Hid).
  rewrite filter_nil_forall; [done|]. intros e He.
  apply list_elem_of_fmap in He as (x & -> & _). simpl.
  by rewrite bool_decide_eq_false_2 by done.
Qed.

Lemma filter_has_interface (mnode : node num) (ifaces : list (node num))
    (c : node num) :
  NoDup (node_id <$> ifaces) → c ∈ ifaces →
  List.filter (λ e, bool_decide (rel_type e = "HAS_INTERFACE")
                    && bool_decide (dst e = node_id c))
              (has_interface mnode <$> ifaces)
  = [has_interface mnode c].
Proof.
  induction ifaces as [|x xs IH]; [by intros _ ?%not_elem_of_nil|].
  rewrite fmap_cons. intros [Hx Hxs]%NoDup_cons Hin.
  apply elem_of_cons in Hin as [<- | Hin]; simpl.
  - rewrite bool_decide_eq_true_2 by done. f_equal.
    apply filter_nil_forall. intros e He.
    apply list_elem_of_fmap in He as (y & -> & Hy). simpl.
    apply bool_decide_eq_false_2. intros Heq. apply Hx. rewrite <- Heq.
    by apply list_elem_of_fmap_2.
  - rewrite bool_decide_eq_false_2; [by apply IH|].
    intros Heq. apply Hx. rewrite Heq. by apply list_elem_of_fmap_2.
Qed.

Lemma match_targets_new_module_interfaces g (mnode : node num)
    (ifaces : list (node num)) :
  edges_closed g → node_id mnode = fresh_id g →
  label mnode = "UGV_Module" →
  Forall (λ x, label x = "Interface_Spec" ∧ node_id mnode < node_id x) ifaces →
  NoDup (node_id <$> ifaces) →
  match_targets (mk_graph num (nodes g ++ mnode :: ifaces)
                   (edges g ++ (has_interface mnode <$> ifaces)))
                "HAS_INTERFACE" "Interface_Spec" mnode
  = ifaces.
Proof.
  intros Hclosed Hid Hlbl Hifaces Hnodup. unfold match_targets. cbn [nodes].
  rewrite List.filter_app, bind_app.
  rewrite (bind_nil_forall (List.filter _ (nodes g))).
  2:{ intros c [Hc _]%elem_of_filter_bool.
      rewrite (rels_between_new_module g mnode ifaces _ c Hclosed Hid).
      rewrite filter_nil_forall; [done|]. intros e He.
      apply list_elem_of_fmap in He as (x & -> & Hx). simpl.
      rewrite Forall_forall in Hifaces. destruct (Hifaces x Hx) as [_ Hlt].
      apply fresh_id_lt in Hc.
      apply bool_decide_eq_false_2. lia. }
  simpl. rewrite Hlbl. simpl.
  rewrite (List.filter_ext_in _ (λ _, true)).
  2:{ intros x Hx%list_elem_of_In. rewrite Forall_forall in Hifaces.
      destruct (Hifaces x Hx) as [-> _]. reflexivity. }
  assert (List.filter (λ _ : node num, true) ifaces = ifaces) as ->
    by (clear; induction ifaces; simpl; by f_equal).
  transitivity (ifaces ≫= λ c : node num, [c]).
  - apply Forall_bind_ext, Forall_forall. intros c Hc.
    rewrite (rels_between_new_module g mnode ifaces _ c Hclosed Hid).
    by rewrite (filter_has_interface mnode ifaces c Hnodup Hc).
  - clear. induction ifaces; simpl; by f_equal.
Qed.

Lemma collect_distinct_nulls {A} (rows : list A) :
  collect_distinct ((λ _, @VNull num) <$> rows) = [].
Proof. unfold collect_distinct, collect. by induction rows. Qed.

Lemma collect_distinct_kinds mech elec therm :
  collect_distinct (VStr <$> declared_kinds (num:=num) mech elec therm)
  = VStr <$> declared_kinds mech elec therm.
Proof. destruct mech, elec, therm; vm_compute; reflexivity. Qed.

(** In the enumeration order of the model. *)
Lemma create_module_then_find_row g (module_id module_type : string) physical
    electrical_iface thermal_iface (description : string) :
  resolve g "UGV_Module" "module_id" module_id = [] →
  edges_closed g →
  (∀ el, electrical_iface = Some el →
         num_eqb (power_draw_w el) (power_draw_w el) = true) →
  find_module_dependencies
    (create_module module_id module_type physical None
       electrical_iface thermal_iface description g).2 module_id
  = Dependencies.Report
      {| Dependencies.module_id := VStr module_id;
         Dependencies.module_type := VStr module_type;
         Dependencies.power_w :=
           from_option (λ el, VNum (power_draw_w el)) VNull electrical_iface;
         Dependencies.mounted_on := VNull;
         Dependencies.missions := [];
         Dependencies.interfaces :=
           VStr <$> declared_kinds None electrical_iface thermal_iface;
         Dependencies.conflicts := [];
         Dependencies.compatible_with := [] |}.
Proof.
  intros Hfresh Hclosed Hpower.
  destruct (create_module_run g module_id module_type physical
              electrical_iface thermal_iface description)
    as (mnode & ifaces & -> & Hlbl & Hmid & Hmty & Hpow & _ & Hifaces & Hids).
  cbn [snd]. set (g' := mk_graph num _ _).
  assert (node_id mnode = fresh_id g) as Hid by (by injection Hids).
  assert (node_id <$> ifaces = seq (S (fresh_id g)) (length ifaces)) as Hiids
    by (by injection Hids).
  assert (NoDup (node_id <$> ifaces)) as Hnodup
    by (rewrite Hiids; apply NoDup_seq).
  assert (Forall (λ x, label x = "Interface_Spec" ∧ node_id mnode < node_id x)
                 ifaces) as Hlabels.
  { apply Forall_forall. intros x Hx. split.
    - clear -Hifaces Hx. induction Hifaces as [|y k ys ks (Hy & _) _ IH];
        [by apply not_elem_of_nil in Hx|].
      apply elem_of_cons in Hx as [-> | Hx]; auto.
    - apply (list_elem_of_fmap_2 node_id) in Hx. rewrite Hiids in Hx.
      apply elem_of_seq in Hx. lia. }
  assert (resolve g' "UGV_Module" "module_id" module_id = [mnode]) as Hres.
  { subst g'. destruct g as [ns es].
    rewrite (resolve_snoc ns ifaces es); [by rewrite Hfresh | by apply has_business_id_intro |].
    apply Forall_forall. intros x Hx. rewrite Forall_forall in Hlabels.
    destruct (Hlabels x Hx) as [Hl _]. unfold has_business_id. by rewrite Hl. }
  unfold find_module_dependencies, dependency_query.
  rewrite dependency_bindings_resolve, Hres, bind_singleton. subst g'.
  rewrite (match_targets_new_module_other g mnode ifaces
             "MOUNTED_ON" "Base_Chassis" Hclosed Hid) by done.
  rewrite (match_targets_new_module_other g mnode ifaces
             "PART_OF_MISSION" "Mission_Profile" Hclosed Hid) by done.
  rewrite (match_targets_new_module_other g mnode ifaces
             "CONFLICTS_WITH" "UGV_Module" Hclosed Hid) by done.
  rewrite (match_targets_new_module_other g mnode ifaces
             "COMPATIBLE_WITH" "UGV_Module" Hclosed Hid) by done.
  rewrite (match_targets_new_module_interfaces g mnode ifaces) by done.
  cbn [optional]. rewrite !bind_singleton.
  set (rows := optional ifaces ≫= _).
  assert (rows = (λ o, {| dep_m := mnode; dep_chassis := None;
                          dep_mission := None; dep_iface := o;
                          dep_m2 := None; dep_m3 := None |})
                 <$> optional ifaces) as Hrows.
  { subst rows. clear. induction (optional ifaces) as [|o os IH]; [done|].
    rewrite bind_cons, fmap_cons, IH. by rewrite !bind_singleton. }
  rewrite Hrows.
  set (k := [VStr module_id; VStr module_type;
             from_option (λ el, VNum (power_draw_w el)) VNull electrical_iface;
             VNull] : list (value num)).
  rewrite (group_by_single dependency_key k).
  2:{ subst k. destruct electrical_iface as [el|]; simpl.
      - rewrite (Hpower el eq_refl). by rewrite !bool_decide_eq_true_2.
      - by rewrite !bool_decide_eq_true_2. }
  2:{ apply Forall_fmap, Forall_forall. intros o _. unfold dependency_key, prop.
      cbn. rewrite Hmid, Hmty, Hpow. by destruct electrical_iface. }
  2:{ intros Hnil%fmap_nil_inv. by apply optional_not_nil in Hnil. }
  cbn [fmap list_fmap]. f_equal. subst k. cbn -[collect_distinct optional declared_kinds].
  rewrite <- !list_fmap_compose.
  f_equal; try apply (collect_distinct_nulls (optional ifaces)).
  destruct ifaces as [|x xs].
  - apply Forall2_nil_inv_l in Hifaces as ->. reflexivity.
  - rewrite <- collect_distinct_kinds. f_equal.
    unfold optional. rewrite <- list_fmap_compose.
    clear -Hifaces. induction Hifaces as [|y kd ys ks (_ & _ & Hy) _ IH]; [done|].
    rewrite !fmap_cons, IH. f_equal. cbn. unfold prop. by rewrite Hy.
Qed.

(** X18: looking up a module right after create_module made it without a
    mechanical record, under an id not in use, gives back the id, the type,
    the power draw of the electrical record (null without one) and, in some
    order, the declared interface kinds, with no mount, mission, conflict or
    compatible module. *)
Theorem create_module_then_find g (module_id module_type : string) physical
    electrical_iface thermal_iface (description : string) :
  resolve g "UGV_Module" "module_id" module_id = [] →
  edges_closed g →
  (∀ el, electrical_iface = Some el →
         num_eqb (power_draw_w el) (power_draw_w el) = true) →
  ∃ r,
    find_module_dependencies
      (create_module module_id module_type physical None
         electrical_iface thermal_iface description g).2 module_id
    = Dependencies.Report r
    ∧ Dependencies.module_id r = VStr module_id
    ∧ Dependencies.module_type r = VStr module_type
    ∧ Dependencies.power_w r
      = from_option (λ el, VNum (power_draw_w el)) VNull electrical_iface
    ∧ Dependencies.mounted_on r = VNull
    ∧ Dependencies.missions r = []
    ∧ Dependencies.conflicts r = []
    ∧ Dependencies.compatible_with r = []
    ∧ Dependencies.interfaces r
      ≡ₚ VStr <$> declared_kinds None electrical_iface thermal_iface.
Proof.
  intros Hfresh Hclosed Hpower.
  rewrite (create_module_then_find_row g module_id module_type physical
             electrical_iface thermal_iface description Hfresh Hclosed Hpower).
  eexists. split; [reflexivity|]. by split_and!.
Qed.

End DependencyLookup.

Section Identifiers.
Context {num : Type} `{!Number num}.

Implicit Types (g : graph num) (n a b m : node num) (e : edge num).

(** ** Internal identifiers in place of business ids *)

Lemma match_nodes_internal_id g (params : gmap string (value num))
    (lbl key p : string) (o : option nat) :
  params !! p = Some (id_value o) →
  Forall (λ n, label n = lbl → is_text (prop n key) = true) (nodes g) →
  match_nodes g params {| pat_label := lbl; pat_cond := PropIs key p |} = [].
Proof.
  intros Hp Hk. unfold match_nodes. cbn [pat_label pat_cond].
  induction Hk as [|n ns Hn _ IH]; [done|]. cbn [List.filter].
  replace (bool_decide (label n = lbl) && cond_holds params (PropIs key p) n)
    with false; [exact IH|].
  symmetry. case_bool_decide as Hl; [|done]. simpl.
  unfold eval_param. rewrite Hp. specialize (Hn Hl).
  by destruct (prop n key), o.
Qed.

Lemma graph_same g : mk_graph num (nodes g) (edges g ++ []) = g.
Proof. destruct g. simpl. by rewrite app_nil_r. Qed.

Lemma add_module_to_mission_any_internal g (module_id : string) (o : option nat) :
  string_keyed g →
  add_module_to_mission_any module_id (id_value o) g = (false, g).
Proof.
  intros Hg. unfold add_module_to_mission_any, kg_bind, exec_match_create_rel, kg_ret.
  rewrite (match_nodes_internal_id g _ "Mission_Profile" "mission_id" "mission_id" o).
  - rewrite bind_nil_inner. simpl. by rewrite graph_same.
  - reflexivity.
  - eapply Forall_impl; [exact Hg|]. by intros n [? _].
Qed.

Lemma add_constraint_to_module_any_internal g (module_id : string) (o : option nat) :
  string_keyed g →
  add_constraint_to_module_any module_id (id_value o) g = (false, g).
Proof.
  intros Hg. unfold add_constraint_to_module_any, kg_bind, exec_match_create_rel, kg_ret.
  rewrite (match_nodes_internal_id g _ "Constraint" "constraint_id" "constraint_id" o).
  - rewrite bind_nil_inner. simpl. by rewrite graph_same.
  - reflexivity.
  - eapply Forall_impl; [exact Hg|]. by intros n [_ ?].
Qed.

Lemma string_keyed_snoc g n (es : list (edge num)) :
  string_keyed g → text_keyed n →
  string_keyed (mk_graph num (nodes g ++ [n]) es).
Proof.
  intros Hg Hn. unfold string_keyed. cbn [nodes].
  apply Forall_app. split; [done|]. by constructor.
Qed.

(** X19: handing add_module_to_mission the value create_mission_profile
    returned, which is the internal identifier and not the business id, links
    nothing: the call returns False and the graph is the one the creation
    left.  The same holds of create_constraint and add_constraint_to_module. *)
Theorem link_by_returned_id g (module_id : string)
    (mission_id mission_name mission_type : string) (duration_hours : num)
    (description : string)
    (constraint_id constraint_type : string) (limit_value : num)
    (unit description' : string) :
  string_keyed g →
  (let! returned := create_mission_profile mission_id mission_name mission_type
                      duration_hours description in
   kg_ok (add_module_to_mission_any module_id (id_value returned))) g
  = (Returned false,
     (create_mission_profile mission_id mission_name mission_type
        duration_hours description g).2)
  ∧ (let! returned := create_constraint constraint_id constraint_type
                        limit_value unit description' in
     kg_ok (add_constraint_to_module_any module_id (id_value returned))) g
    = (Returned false,
       (create_constraint constraint_id constraint_type limit_value
          unit description' g).2).
Proof.
  intros Hg. split.
  - destruct (create_mission_profile_run g mission_id mission_name mission_type
                duration_hours description) as (n & Erun & _ & Hl & Hp).
    rewrite (kg_try_run _ _ _ _ _ Erun), Erun. cbn [snd].
    apply kg_ok_run, add_module_to_mission_any_internal, string_keyed_snoc;
      [done|].
    unfold text_keyed, prop. rewrite Hl, Hp. by split.
  - destruct (create_constraint_run g constraint_id constraint_type limit_value
                unit description') as (n & Erun & _ & Hl & Hp).
    rewrite (kg_try_run _ _ _ _ _ Erun), Erun. cbn [snd].
    apply kg_ok_run, add_constraint_to_module_any_internal, string_keyed_snoc;
      [done|].
    unfold text_keyed, prop. rewrite Hl, Hp. by split.
Qed.

End Identifiers.

(** ** The example script *)

(** X20: populate_knowledge_graph does not run to its end on any graph: its
    first create_module carries a mechanical record and raises
    CypherTypeError.  The chassis node and the optical module node are then
    written; no interface, no mission, no constraint and no edge is. *)
Theorem populate_knowledge_graph_raises (g : graph float) :
  ∃ chassis optical,
    populate_knowledge_graph g
    = (Raised CypherTypeError,
       mk_graph float (nodes g ++ [chassis; optical]) (edges g))
    ∧ label chassis = "Base_Chassis"
    ∧ props chassis !! "chassis_id" = Some (VStr "chassis_001")
    ∧ label optical = "UGV_Module"
    ∧ props optical !! "module_id" = Some (VStr "module_optical_cam_001").
Proof.
  unfold populate_knowledge_graph. cbv zeta.
  lazymatch goal with
  | |- context [kg_try (create_base_chassis ?i ?p ?b ?t ?s) _ g] =>
      destruct (create_base_chassis_run g i p b t s)
        as (chassis & Echassis & _ & Hcl & Hcp)
  end.
  rewrite (kg_try_run _ _ _ _ _ Echassis).
  lazymatch goal with
  | |- context [kg_try (create_module ?i ?t ?p (Some ?me) ?el ?th ?d) _ ?G] =>
      destruct (create_module_mechanical G i t p me el th d)
        as (optical & Eoptical & _ & Hol & Hop)
  end.
  rewrite (kg_try_raise _ _ _ _ _ Eoptical).
  exists chassis, optical. cbn [nodes edges]. rewrite <- app_assoc.
  by split_and!.
Qed.

(** X21: run_example_queries never returns.  It raises KeyError
    'total_power_w' when one of its two missions has no linked module, and
    CypherSyntaxError from get_mission_compatibility when both have one. *)
Theorem run_example_queries_raises
    (compat_rows : graph float → string → list (compat_record float))
    (manifest_rows : graph float → string → list (manifest_row float))
    (g : graph float) :
  ((∀ m, ¬ linked g "mission_recon_001" m)
   ∨ (∀ m, ¬ linked g "mission_eod_001" m) →
   run_example_queries compat_rows manifest_rows g
   = Raised (KeyError "total_power_w"))
  ∧ ((∃ m, linked g "mission_recon_001" m) →
     (∃ m, linked g "mission_eod_001" m) →
     run_example_queries compat_rows manifest_rows g
     = Raised CypherSyntaxError)
  ∧ ∀ x, run_example_queries compat_rows manifest_rows g ≠ Returned x.
Proof.
  unfold run_example_queries.
  assert (∀ mid, (∀ m, ¬ linked g mid m) →
            budget_item (validate_mission_power_budget g mid 3.5%float)
                        "total_power_w"
            = Raised (KeyError "total_power_w")) as Hnone.
  { intros mid Hno. by rewrite validate_without_rows by by apply power_query_nil. }
  assert (∀ mid, (∃ m, linked g mid m) →
            ∃ r, budget_item (validate_mission_power_budget g mid 3.5%float)
                             "total_power_w" = Returned r) as Hsome.
  { intros mid Hlinked%power_query_not_nil. unfold validate_mission_power_budget.
    destruct (power_query g mid); [done|]. by eexists. }
  assert (∀ mid, budget_item (validate_mission_power_budget g mid 3.5%float)
                             "total_power_w"
                 = Raised (KeyError "total_power_w")
                 ∨ ∃ r, budget_item (validate_mission_power_budget g mid 3.5%float)
                                    "total_power_w" = Returned r) as Hcase.
  { intros mid. destruct (validate_mission_power_budget g mid 3.5%float);
      [by left | right; by eexists]. }
  split_and!.
  - intros [Hrecon | Heod].
    + by rewrite (Hnone _ Hrecon).
    + destruct (Hcase "mission_recon_001") as [-> | [r ->]]; [done|].
      cbn [mbind outcome_bind]. by rewrite (Hnone _ Heod).
  - intros [r ->]%Hsome [r' ->]%Hsome. cbn [mbind outcome_bind].
    by rewrite get_mission_compatibility_refused.
  - intros x.
    destruct (Hcase "mission_recon_001") as [-> | [r ->]]; [done|].
    cbn [mbind outcome_bind].
    destruct (Hcase "mission_eod_001") as [-> | [r' ->]]; [done|].
    cbn [mbind outcome_bind].
    by rewrite get_mission_compatibility_refused.
Qed.

(** * The scenarios, evaluated *)

(** On binary64 numbers [==] implies [<=]. *)
Lemma float_eqb_leb (x y : float) :
  PrimFloat.eqb x y = true → PrimFloat.leb x y = true.
Proof.
  rewrite FloatAxioms.eqb_spec, FloatAxioms.leb_spec. unfold SFeqb, SFleb.
  destruct (SFcompare _ _) as [[]|]; congruence.
Qed.

(** The report theorem at "MX" against 3.5 kW. *)
Lemma validate_mission_power_budget_report_witness :
  (∃ m, linked scenario "MX" m)
  ∧ ∃ r, validate_mission_power_budget scenario "MX" 3.5%float = BudgetReport r
         ∧ budget_kw r = 3.5%float
         ∧ total_power_kw r = num_truediv (total_power_w r) (num_of_Z 1000)
         ∧ margin_kw r = num_sub (budget_kw r) (total_power_kw r)
         ∧ within_budget r = num_leb (total_power_kw r) (budget_kw r)
         ∧ (num_eqb (total_power_kw r) (budget_kw r) = true →
            within_budget r = true).
Proof.
  assert (∃ m, linked scenario "MX" m) as Hlinked.
  { apply rows_linked. vm_compute. discriminate. }
  split; [exact Hlinked|].
  exact (validate_mission_power_budget_report scenario "MX" 3.5%float
           float_eqb_leb Hlinked).
Defined.

(** The report of "MX" against 3.5 kW: 720 W, within budget; and against
    the budget 720 / 1000 itself, still within budget. *)
Example validate_mission_power_budget_MX :
  validate_mission_power_budget scenario "MX" 3.5%float
  = BudgetReport {| mission_name := VStr "Mission X";
                    total_power_w := 720%float;
                    total_power_kw := PrimFloat.div 720 1000;
                    budget_kw := 3.5%float;
                    num_modules := 2;
                    within_budget := true;
                    margin_kw := PrimFloat.sub 3.5 (PrimFloat.div 720 1000);
                    module_ids := [VStr "M1"; VStr "M2"] |}
  ∧ ∃ r, validate_mission_power_budget scenario "MX" (PrimFloat.div 720 1000)
         = BudgetReport r
         ∧ margin_kw r = 0%float ∧ within_budget r = true.
Proof. split; [|eexists; split_and!]; vm_compute; reflexivity. Qed.

(** "EMPTY" exists and has no module. *)
Lemma validate_mission_power_budget_no_modules_witness :
  (∀ m, ¬ linked scenario "EMPTY" m)
  ∧ validate_mission_power_budget scenario "EMPTY" 3.5%float = no_modules_found.
Proof.
  assert (∀ m, ¬ linked scenario "EMPTY" m) as Hnone.
  { apply no_rows_not_linked. vm_compute. reflexivity. }
  split; [exact Hnone|].
  exact (validate_mission_power_budget_no_modules scenario "EMPTY" 3.5%float
           Hnone).
Defined.

(** "NOPE" names no mission; "EMPTY" names one without modules. *)
Lemma validate_mission_power_budget_unknown_mission_witness :
  validate_mission_power_budget scenario "NOPE" 3.5%float = no_modules_found
  ∧ validate_mission_power_budget scenario "NOPE" 3.5%float
    = validate_mission_power_budget scenario "EMPTY" 1%float.
Proof.
  apply (validate_mission_power_budget_unknown_mission
           scenario scenario "NOPE" "EMPTY" 3.5%float 1%float).
  - vm_compute. reflexivity.
  - vm_compute. discriminate.
  - apply no_rows_not_linked. vm_compute. reflexivity.
Defined.

(** "EMPTY" names a mission without modules, "NOPE" names none. *)
Lemma get_mission_manifest_raises_witness :
  get_mission_manifest (λ _ _, []) scenario "EMPTY" = Raised CypherSyntaxError
  ∧ get_mission_manifest (λ _ _, []) scenario "NOPE" = Raised CypherSyntaxError.
Proof.
  apply (get_mission_manifest_raises (λ _ _, []) scenario "EMPTY" "NOPE").
  - vm_compute. discriminate.
  - apply no_rows_not_linked. vm_compute. reflexivity.
  - vm_compute. reflexivity.
Defined.

(** "M1" and "M2" of "MX", marked both compatible and conflicting. *)
Lemma conflicting_pair_raises_witness :
  get_mission_compatibility (λ _ _, []) scenario "MX" = Raised CypherSyntaxError.
Proof.
  apply (conflicting_pair_raises (λ _ _, []) scenario "MX"
           scenario_m1 scenario_m2 scenario_conflict scenario_compatible).
  - apply elem_of_mission_modules.
    replace (mission_modules scenario "MX") with [scenario_m1; scenario_m2]
      by (vm_compute; reflexivity).
    apply list_elem_of_here.
  - apply elem_of_mission_modules.
    replace (mission_modules scenario "MX") with [scenario_m1; scenario_m2]
      by (vm_compute; reflexivity).
    apply list_elem_of_further, list_elem_of_here.
  - vm_compute. lia.
  - replace (rels_between scenario "CONFLICTS_WITH" scenario_m1 scenario_m2)
      with [scenario_conflict] by (vm_compute; reflexivity).
    apply list_elem_of_here.
  - replace (rels_between scenario "COMPATIBLE_WITH" scenario_m1 scenario_m2)
      with [scenario_compatible] by (vm_compute; reflexivity).
    apply list_elem_of_here.
Defined.



(** A module "M3" with an electrical interface only, and one with a
    mechanical interface beside it. *)
Lemma create_module_interfaces_witness :
  (∃ mnode ifaces,
     create_module "M3" "Payload_Module" sample_physical None
       (Some (sample_electrical 50%float)) None "" scenario
     = (Returned (Some (node_id mnode)),
        mk_graph float (nodes scenario ++ mnode :: ifaces)
                 (edges scenario ++ (has_interface mnode <$> ifaces)))
     ∧ label mnode = "UGV_Module"
     ∧ props mnode !! "module_id" = Some (VStr "M3")
     ∧ Forall2 (interface_of "M3") ifaces
         (declared_kinds None (Some (sample_electrical 50%float)) None)
     ∧ node_id <$> mnode :: ifaces
       = seq (fresh_id scenario) (S (length ifaces)))
  ∧ (∃ mnode,
       create_module "M4" "Sensing_Module" sample_physical
         (Some sample_mechanical) (Some (sample_electrical 50%float)) None ""
         scenario
       = (Raised CypherTypeError,
          mk_graph float (nodes scenario ++ [mnode]) (edges scenario))
       ∧ label mnode = "UGV_Module"
       ∧ props mnode !! "module_id" = Some (VStr "M4")).
Proof.
  split.
  - apply (proj1 (create_module_interfaces scenario "M3" "Payload_Module"
                    sample_physical None (Some (sample_electrical 50%float))
                    None "")).
    reflexivity.
  - apply (proj2 (create_module_interfaces scenario "M4" "Sensing_Module"
                    sample_physical (Some sample_mechanical)
                    (Some (sample_electrical 50%float)) None "")).
    discriminate.
Defined.





(** * The further scenarios, evaluated *)

Lemma string_keyed_scenario : string_keyed scenario.
Proof.
  unfold string_keyed, text_keyed. apply (bool_decide_unpack _).
  vm_compute. reflexivity.
Qed.

Lemma edges_closed_scenario : edges_closed scenario.
Proof.
  unfold edges_closed. apply (bool_decide_unpack _). vm_compute. reflexivity.
Qed.

Lemma NoDup_scenario : NoDup (node_id <$> nodes scenario).
Proof. apply (bool_decide_unpack _). vm_compute. reflexivity. Qed.

(** "M1" added to "MX" twice more. *)
Lemma rel_call_twice_witness :
  (let* _ := run_rel_call (AddModuleToMission "M1" "MX") in
   run_rel_call (AddModuleToMission "M1" "MX")) scenario
  = (true,
     add_edges scenario
       [rel_call_edge (AddModuleToMission "M1" "MX") scenario_m1 scenario_mx;
        rel_call_edge (AddModuleToMission "M1" "MX") scenario_m1 scenario_mx]).
Proof.
  apply (rel_call_twice (AddModuleToMission "M1" "MX") scenario
           scenario_m1 scenario_mx).
  - vm_compute. reflexivity.
  - vm_compute. reflexivity.
Defined.

(** No source identifier. *)
Lemma create_relationship_without_id_witness :
  _create_relationship "UGV_Module" None "HAS_INTERFACE" "Interface_Spec"
    (Some 3) None scenario
  = (false, scenario).
Proof.
  apply (create_relationship_without_id scenario "UGV_Module" "HAS_INTERFACE"
           "Interface_Spec" None (Some 3)).
  left. reflexivity.
Defined.


(** "M1" is in "MX" already; adding it again makes three modules of two. *)
Lemma add_module_to_mission_counts_again_witness :
  (add_module_to_mission "M1" "MX" scenario).1 = true
  ∧ reported_modules
      (validate_mission_power_budget
         (add_module_to_mission "M1" "MX" scenario).2 "MX" 3.5%float)
    = S (reported_modules
           (validate_mission_power_budget scenario "MX" 3.5%float)).
Proof.
  apply (add_module_to_mission_counts_again scenario "M1" "MX" 3.5%float
           scenario_m1 scenario_mx).
  - exact NoDup_scenario.
  - vm_compute. reflexivity.
  - vm_compute. reflexivity.
  - vm_compute. reflexivity.
Defined.


Lemma find_module_dependencies_outgoing_witness :
  (∀ v, v ∈ Dependencies.conflicts scenario_m1_dependencies →
        ∃ m, m ∈ resolve scenario "UGV_Module" "module_id" "M1"
             ∧ points_to scenario "CONFLICTS_WITH" m v)
  ∧ (∀ v, v ∈ Dependencies.compatible_with scenario_m1_dependencies →
          ∃ m, m ∈ resolve scenario "UGV_Module" "module_id" "M1"
               ∧ points_to scenario "COMPATIBLE_WITH" m v).
Proof.
  apply (find_module_dependencies_outgoing scenario "M1"
           scenario_m1_dependencies).
  vm_compute. reflexivity.
Defined.

(** "M1" before and after it is mounted on "C1". *)
Lemma mount_then_find_witness :
  (∃ r, find_module_dependencies unmounted "M1" = Dependencies.Report r
        ∧ Dependencies.mounted_on r = VNull)
  ∧ (∃ r, find_module_dependencies
            (mount_module_on_chassis "M1" "C1" "front_mast"
               (0%float, 0%float, 0.5%float) unmounted).2 "M1"
          = Dependencies.Report r
        ∧ Dependencies.mounted_on r = VStr "C1").
Proof.
  apply (mount_then_find unmounted "M1" "C1" "front_mast"
           (0%float, 0%float, 0.5%float) unmounted_m1 unmounted_c1).
  - apply (bool_decide_unpack _). vm_compute. reflexivity.
  - vm_compute. reflexivity.
  - vm_compute. reflexivity.
  - vm_compute. reflexivity.
Defined.


(** The same module, looked up. *)
Lemma create_module_then_find_witness :
  ∃ r,
    find_module_dependencies
      (create_module "M3" "Payload_Module" sample_physical None
         (Some (sample_electrical 50%float)) None "" scenario).2 "M3"
    = Dependencies.Report r
    ∧ Dependencies.module_id r = VStr "M3"
    ∧ Dependencies.module_type r = VStr "Payload_Module"
    ∧ Dependencies.power_w r
      = from_option (λ el, VNum (power_draw_w el)) VNull
          (Some (sample_electrical 50%float))
    ∧ Dependencies.mounted_on r = VNull
    ∧ Dependencies.missions r = []
    ∧ Dependencies.conflicts r = []
    ∧ Dependencies.compatible_with r = []
    ∧ Dependencies.interfaces r
      ≡ₚ VStr <$> declared_kinds None (Some (sample_electrical 50%float)) None.
Proof.
  apply (create_module_then_find scenario "M3" "Payload_Module"
           sample_physical (Some (sample_electrical 50%float)) None "").
  - vm_compute. reflexivity.
  - exact edges_closed_scenario.
  - intros el [= <-]. vm_compute. reflexivity.
Defined.

(** A mission "MY" and a constraint "K1", each linked by what its creation
    returned. *)
Lemma link_by_returned_id_witness :
  (let! returned := create_mission_profile "MY" "Mission Y" "recon" 2%float
                      "" in
   kg_ok (add_module_to_mission_any "M1" (id_value returned))) scenario
  = (Returned false,
     (create_mission_profile "MY" "Mission Y" "recon" 2%float "" scenario).2)
  ∧ (let! returned := create_constraint "K1" "power_budget" 3500%float
                        "watts" "" in
     kg_ok (add_constraint_to_module_any "M1" (id_value returned))) scenario
    = (Returned false,
       (create_constraint "K1" "power_budget" 3500%float "watts" ""
          scenario).2).
Proof.
  apply (link_by_returned_id scenario "M1" "MY" "Mission Y" "recon" 2%float ""
           "K1" "power_budget" 3500%float "watts" "").
  exact string_keyed_scenario.
Defined.

(** The scenario has neither mission of the script; [example_missions] has
    both, with a module in each. *)
Lemma run_example_queries_raises_witness :
  run_example_queries (λ _ _, []) (λ _ _, []) scenario
  = Raised (KeyError "total_power_w")
  ∧ run_example_queries (λ _ _, []) (λ _ _, []) example_missions
    = Raised CypherSyntaxError.
Proof.
  split.
  - apply (proj1 (run_example_queries_raises (λ _ _, []) (λ _ _, [])
                    scenario)).
    left. intros m. apply unresolved_not_linked. vm_compute. reflexivity.
  - apply (proj1 (proj2 (run_example_queries_raises (λ _ _, []) (λ _ _, [])
                           example_missions))).
    + apply rows_linked. vm_compute. discriminate.
    + apply rows_linked. vm_compute. discriminate.
Defined.
